(** * n8n MCP server: the tool handlers of [src/index.ts]

    The server translates each tool call into requests against the n8n
    REST API.  The handlers are embedded here over an explicit model of
    the JavaScript values they receive and build, of the random source
    behind [crypto.randomBytes] and of the remote API reached through
    axios. *)

From Stdlib Require Import ZArith List String Ascii Bool Lia.
From Stdlib Require Import DecimalString.
From Stdlib.Strings Require Byte.
Import ListNotations.
Local Open Scope string_scope.
Set Warnings "-register-all".

(** ** JavaScript values

    Tool arguments and response bodies are parsed JSON; [JUndefined] is
    what reading an absent property gives.  An object is the list of its
    own enumerable properties in the order [Object.entries] gives them.
    A string is its sequence of bytes in UTF-8, which for ASCII text is
    its sequence of characters. *)

Module JS.

(** A number is either an integer or a finite non-integral number, which
    the handlers never compute with and which is carried with the text
    [Number.prototype.toString] gives for it.  JSON has neither NaN nor
    the infinities. *)
Inductive Number : Type :=
| NInt (z : Z)
| NFrac (text : string).

Inductive Value : Type :=
| JUndefined
| JNull
| JBool (b : bool)
| JNum (n : Number)
| JStr (s : string)
| JArr (items : list Value)
| JObj (props : list (string * Value)).

Definition Props : Type := list (string * Value).

Definition int (z : Z) : Value := JNum (NInt z).

(** ToBoolean: [if (v)], [!v], [a || b]. *)
Definition truthy (v : Value) : bool :=
  match v with
  | JUndefined | JNull => false
  | JBool b => b
  | JNum (NInt z) => negb (z =? 0)%Z
  | JNum (NFrac _) => true
  | JStr EmptyString => false
  | JStr (String _ _) => true
  | JArr _ | JObj _ => true
  end.

(** [a || b] on values (both operands already evaluated). *)
Definition or (a b : Value) : Value := if truthy a then a else b.

Inductive Typeof : Type :=
| TUndefined | TObject | TBoolean | TNumber | TString.

Definition typeof (v : Value) : Typeof :=
  match v with
  | JUndefined => TUndefined
  | JNull | JArr _ | JObj _ => TObject
  | JBool _ => TBoolean
  | JNum _ => TNumber
  | JStr _ => TString
  end.

Definition isArray (v : Value) : bool :=
  match v with JArr _ => true | _ => false end.

(** [typeof v === 'object' && v !== null] *)
Definition isObjectLike (v : Value) : bool :=
  match v with JArr _ | JObj _ => true | _ => false end.

(** *** Own properties *)

Fixpoint lookup (k : string) (ps : Props) : option Value :=
  match ps with
  | [] => None
  | (k', v) :: rest => if String.eqb k k' then Some v else lookup k rest
  end.

(** [o.k = v] on the property list of an ordinary object, for a key that
    has no setter on the prototype chain: an existing property keeps its
    place, a new one goes last. *)
Fixpoint set (k : string) (v : Value) (ps : Props) : Props :=
  match ps with
  | [] => [(k, v)]
  | (k', v') :: rest =>
      if String.eqb k k' then (k, v) :: rest else (k', v') :: set k v rest
  end.

Fixpoint remove (k : string) (ps : Props) : Props :=
  match ps with
  | [] => []
  | (k', v') :: rest =>
      if String.eqb k k' then remove k rest else (k', v') :: remove k rest
  end.

(** [v.k] for the property names this program reads ([id], [name],
    [settings], [message], ...): none of them is [length], an index or a
    member of a built-in prototype, so only an object's own properties
    can answer.  Reading from [null] or [undefined] throws instead; see
    [Server.prop]. *)
Definition get (v : Value) (k : string) : Value :=
  match v with
  | JObj ps => match lookup k ps with Some x => x | None => JUndefined end
  | _ => JUndefined
  end.

(** *** Number and string conversion *)

Definition decimal (z : Z) : string := NilZero.string_of_int (Z.to_int z).

Definition numberToString (n : Number) : string :=
  match n with
  | NInt z => decimal z
  | NFrac text => text
  end.

(** ToString, as a template literal applies it.  An array joins its
    elements with commas, [null] and [undefined] elements giving nothing. *)
Fixpoint toString (v : Value) : string :=
  match v with
  | JUndefined => "undefined"
  | JNull => "null"
  | JBool true => "true"
  | JBool false => "false"
  | JNum n => numberToString n
  | JStr s => s
  | JArr items =>
      (fix join (l : list Value) : string :=
         match l with
         | [] => EmptyString
         | x :: rest =>
             match x with
             | JUndefined | JNull => EmptyString
             | _ => toString x
             end ++
             match rest with
             | [] => EmptyString
             | _ :: _ => "," ++ join rest
             end
         end) items
  | JObj _ => "[object Object]"
  end.

(** *** Own enumerable entries: [Object.entries] and object spread *)

Fixpoint indexed (i : nat) (l : list Value) : Props :=
  match l with
  | [] => []
  | x :: rest => (decimal (Z.of_nat i), x) :: indexed (S i) rest
  end.

Fixpoint chars (s : string) : list Value :=
  match s with
  | EmptyString => []
  | String c rest => JStr (String c EmptyString) :: chars rest
  end.

Definition entries (v : Value) : Props :=
  match v with
  | JObj ps => ps
  | JArr items => indexed 0 items
  | JStr s => indexed 0 (chars s)
  | _ => []
  end.

(** [{...target, ...source}]: every entry of the source is defined on the
    copy, replacing a property of the same name. *)
Definition spread (target : Props) (source : Value) : Props :=
  fold_left (fun acc kv => set (fst kv) (snd kv) acc) (entries source) target.

(** *** JSON.stringify *)

Definition hexDigit (n : N) : ascii :=
  match n with
  | 0%N => "0" | 1%N => "1" | 2%N => "2" | 3%N => "3"
  | 4%N => "4" | 5%N => "5" | 6%N => "6" | 7%N => "7"
  | 8%N => "8" | 9%N => "9" | 10%N => "a" | 11%N => "b"
  | 12%N => "c" | 13%N => "d" | 14%N => "e" | _ => "f"
  end%char.

Definition hexByte (n : N) : string :=
  String (hexDigit (n / 16)) (String (hexDigit (n mod 16)) EmptyString).

Definition newline : string := String (ascii_of_nat 10) EmptyString.
Definition dquote : string := String (ascii_of_nat 34) EmptyString.
Definition backslash : string := String (ascii_of_nat 92) EmptyString.

Definition escapeChar (c : ascii) : string :=
  let n := N_of_ascii c in
  if (n =? 34)%N then backslash ++ dquote
  else if (n =? 92)%N then backslash ++ backslash
  else if (n =? 8)%N then backslash ++ "b"
  else if (n =? 12)%N then backslash ++ "f"
  else if (n =? 10)%N then backslash ++ "n"
  else if (n =? 13)%N then backslash ++ "r"
  else if (n =? 9)%N then backslash ++ "t"
  else if (n <? 32)%N then backslash ++ "u00" ++ hexByte n
  else String c EmptyString.

Fixpoint escape (s : string) : string :=
  match s with
  | EmptyString => EmptyString
  | String c rest => escapeChar c ++ escape rest
  end.

Definition quote (s : string) : string := dquote ++ escape s ++ dquote.

Definition isEmpty (s : string) : bool :=
  match s with EmptyString => true | _ => false end.

Definition wrap (opening closing gap indent : string) (parts : list string)
  : string :=
  match parts with
  | [] => opening ++ closing
  | _ :: _ =>
      if isEmpty gap then opening ++ String.concat "," parts ++ closing
      else
        let inner := indent ++ gap in
        opening ++ newline ++ inner
          ++ String.concat ("," ++ newline ++ inner) parts
          ++ newline ++ indent ++ closing
  end.

(** The serialization of a value that is not [undefined]; inside an array
    [undefined] is written [null], inside an object a property whose
    value is [undefined] is left out. *)
Fixpoint serialize (gap indent : string) (v : Value) {struct v} : string :=
  match v with
  | JUndefined | JNull => "null"
  | JBool true => "true"
  | JBool false => "false"
  | JNum n => numberToString n
  | JStr s => quote s
  | JArr items =>
      wrap "[" "]" gap indent
        ((fix each (l : list Value) : list string :=
            match l with
            | [] => []
            | x :: rest => serialize gap (indent ++ gap) x :: each rest
            end) items)
  | JObj props =>
      wrap "{" "}" gap indent
        ((fix each (l : Props) : list string :=
            match l with
            | [] => []
            | (k, x) :: rest =>
                match x with
                | JUndefined => each rest
                | _ =>
                    (quote k ++ ":" ++ (if isEmpty gap then EmptyString else " ")
                       ++ serialize gap (indent ++ gap) x) :: each rest
                end
            end) props)
  end.

(** [`${JSON.stringify(v)}`] and [`${JSON.stringify(v, null, 2)}`]: the
    text interpolated into a message ([JSON.stringify(undefined)] is
    [undefined]). *)
Definition stringifyWith (gap : string) (v : Value) : string :=
  match v with
  | JUndefined => "undefined"
  | _ => serialize gap EmptyString v
  end.

Definition stringify (v : Value) : string := stringifyWith EmptyString v.
Definition stringifyPretty (v : Value) : string := stringifyWith "  " v.

End JS.

Import JS.


(** ** The world outside the handlers

    A handler draws random bytes and talks to the remote API.  Both are
    explicit: the world carries the byte source with a read position, the
    remote system as a function of the requests it has already seen and
    the one arriving, and the list of requests sent so far. *)

Module Http.

Inductive Method : Type := GET | POST | PUT | PATCH | DELETE.

(** One call on the axios instance: [n8nApi.get(url, { params })],
    [n8nApi.post(url, body)], ...; an argument that is not given is
    [JUndefined]. *)
Record Request : Type := mkRequest {
  method : Method;
  url : string;
  params : Value;
  body : Value
}.

Record Response : Type := mkResponse {
  status : Z;
  statusText : string;
  data : Value
}.

(** What comes back: a response with some status, or none at all (a
    timeout after 30 s, a refused connection) with the message axios
    gives the failure. *)
Inductive Reply : Type :=
| Responded (response : Response)
| NoResponse (message : string).

(** What the handlers throw and catch. *)
Inductive Thrown : Type :=
| Error (message : string)
| TypeError (message : string)
| AxiosError (message : string) (response : option Response).

Record World : Type := mkWorld {
  entropy : nat -> Byte.byte;
  drawn : nat;
  remote : list Request -> Request -> Reply;
  sent : list Request
}.

Inductive Outcome (A : Type) : Type :=
| Returned (a : A)
| Threw (e : Thrown).
Arguments Returned {A} a.
Arguments Threw {A} e.

Definition M (A : Type) : Type := World -> Outcome A * World.

Definition ret {A : Type} (a : A) : M A := fun w => (Returned a, w).

Definition throw {A : Type} (e : Thrown) : M A := fun w => (Threw e, w).

Definition bind {A B : Type} (m : M A) (k : A -> M B) : M B :=
  fun w =>
    match m w with
    | (Returned a, w') => k a w'
    | (Threw e, w') => (Threw e, w')
    end.

(** [try { m } catch (error) { handler }] *)
Definition try {A : Type} (m : M A) (handler : Thrown -> M A) : M A :=
  fun w =>
    match m w with
    | (Returned a, w') => (Returned a, w')
    | (Threw e, w') => handler e w'
    end.

(** axios resolves on a 2xx status and rejects on every other one. *)
Definition validateStatus (status : Z) : bool :=
  ((200 <=? status) && (status <? 300))%Z.

(** The world once a request has gone out. *)
Definition sending (r : Request) (w : World) : World :=
  mkWorld (entropy w) (drawn w) (remote w) (sent w ++ [r]).

Definition n8nApi (r : Request) : M Response :=
  fun w =>
    match remote w (sent w) r with
    | Responded response =>
        if validateStatus (status response)
        then (Returned response, sending r w)
        else
          (Threw (AxiosError
                    ("Request failed with status code " ++ decimal (status response))
                    (Some response)),
           sending r w)
    | NoResponse message => (Threw (AxiosError message None), sending r w)
    end.

(** [crypto.randomBytes(n)] *)
Definition randomBytes (n : nat) : M (list Byte.byte) :=
  fun w =>
    (Returned (List.map (fun i => entropy w (drawn w + i)) (seq 0 n)),
     mkWorld (entropy w) (drawn w + n) (remote w) (sent w)).

(** [buffer.toString('hex')] *)
Fixpoint hex (bytes : list Byte.byte) : string :=
  match bytes with
  | [] => EmptyString
  | b :: rest => hexByte (Byte.to_N b) ++ hex rest
  end.

End Http.

Import Http.

Declare Scope js_scope.
Delimit Scope js_scope with js.
Notation "x <- m ;; k" := (bind m (fun x => k))
  (at level 61, m at next level, right associativity) : js_scope.
Local Open Scope js_scope.

(** ** The handlers of [N8NMCPServer] *)

Module Server.

(** [v.k] as an expression that can throw: reading a property of [null]
    or [undefined] is a TypeError (the message is V8's). *)
Definition prop (v : Value) (k : string) : M Value :=
  match v with
  | JUndefined | JNull =>
      throw (TypeError ("Cannot read properties of " ++ toString v
                          ++ " (reading '" ++ k ++ "')"))
  | _ => ret (get v k)
  end.

(** [const { k, ...rest } = v] reads [k] the same way, with another
    message when there is nothing to take apart. *)
Definition destructure (v : Value) (k : string) : M Value :=
  match v with
  | JUndefined | JNull =>
      throw (TypeError ("Cannot destructure property '" ++ k ++ "' of 'args' as it is "
                          ++ toString v ++ "."))
  | _ => ret (get v k)
  end.

Definition typeName (v : Value) : string :=
  match typeof v with
  | TUndefined => "undefined"
  | TObject => "object"
  | TBoolean => "boolean"
  | TNumber => "number"
  | TString => "string"
  end.

(** [v.k = x] in strict code (a class body), giving the object as it is
    afterwards.  On an object the own property is written.  An array
    takes the property too, but JSON serialization writes only the
    elements of an array, so the array stands for itself.  On a primitive
    the assignment throws. *)
Definition assign (v : Value) (k : string) (x : Value) : M Value :=
  match v with
  | JObj ps => ret (JObj (set k x ps))
  | JArr _ => ret v
  | JUndefined | JNull =>
      throw (TypeError ("Cannot set properties of " ++ toString v
                          ++ " (setting '" ++ k ++ "')"))
  | _ =>
      throw (TypeError ("Cannot create property '" ++ k ++ "' on "
                          ++ typeName v ++ " '" ++ toString v ++ "'"))
  end.

(** [array.map((x, index) => f(index, x))]; a throwing callback ends the
    loop. *)
Fixpoint mapFrom {A B : Type} (f : nat -> A -> M B) (index : nat) (l : list A)
  : M (list B) :=
  match l with
  | [] => ret []
  | x :: rest =>
      y <- f index x;;
      ys <- mapFrom f (S index) rest;;
      ret (y :: ys)
  end.

Definition mapIndexed {A B : Type} (f : nat -> A -> M B) (l : list A)
  : M (list B) :=
  mapFrom f 0 l.

Definition formatError (error : Thrown) : string :=
  match error with
  | AxiosError _ response =>
      let status :=
        match response with Some r => int (status r) | None => JUndefined end in
      let statusText :=
        match response with Some r => JStr (statusText r) | None => JUndefined end in
      let data :=
        match response with Some r => data r | None => JUndefined end in
      let message := "HTTP " ++ toString status ++ " " ++ toString statusText in
      if truthy data then
        match data with
        | JStr s => message ++ " - " ++ s
        | _ =>
            if truthy (get data "message")
            then message ++ " - " ++ toString (get data "message")
            else if truthy (get data "error")
            then message ++ " - " ++ toString (get data "error")
            else message ++ " - " ++ stringify data
        end
      else message
  | Error message => message
  | TypeError message => message
  end.

Definition generateNodeId : M string :=
  bytes <- randomBytes 16;;
  ret (hex bytes).

Definition listWorkflows (args : Value) : M string :=
  active <- prop args "active";;
  let params :=
    match active with
    | JUndefined => JObj []
    | _ => JObj [("active", active)]
    end in
  response <- n8nApi (mkRequest GET "/workflows" params JUndefined);;
  ret (stringifyPretty (data response)).

Definition getWorkflow (args : Value) : M string :=
  id <- prop args "id";;
  response <- n8nApi (mkRequest GET ("/workflows/" ++ toString id) JUndefined JUndefined);;
  ret (stringifyPretty (data response)).

Definition defaultSettings : Value :=
  JObj [("executionOrder", JStr "v1");
        ("saveDataSuccessExecution", JStr "all");
        ("saveExecutionProgress", JBool true);
        ("saveManualExecutions", JBool true);
        ("callerPolicy", JStr "workflowsFromSameOwner")].

Definition defaultPosition (index : nat) : Value :=
  JArr [int (250 + Z.of_nat index * 250); int 300].

Definition arrayLength (v : Value) : nat :=
  match v with JArr items => List.length items | _ => 0 end.

(** The callback of [workflowData.nodes.map] in [createWorkflow]
    (lines 388-422).  The node object is updated in place and returned. *)
Definition createWorkflow_node (index : nat) (node : Value) : M Value :=
  id <- prop node "id";;
  node <- (if negb (truthy id)
           then fresh <- generateNodeId;; assign node "id" (JStr fresh)
           else ret node);;
  name <- prop node "name";;
  if negb (truthy name)
  then throw (Error ("Node at index " ++ decimal (Z.of_nat index)
                       ++ " is missing required 'name' field"))
  else
  type <- prop node "type";;
  if negb (truthy type)
  then throw (Error ("Node at index " ++ decimal (Z.of_nat index)
                       ++ " is missing required 'type' field"))
  else
  typeVersion <- prop node "typeVersion";;
  node <- (if negb (truthy typeVersion)
           then assign node "typeVersion" (int 1)
           else ret node);;
  position <- prop node "position";;
  node <- (if negb (truthy position) || negb (isArray position)
              || negb (arrayLength position =? 2)%nat
           then assign node "position" (defaultPosition index)
           else ret node);;
  parameters <- prop node "parameters";;
  node <- (if negb (truthy parameters)
           then assign node "parameters" (JObj [])
           else ret node);;
  disabled <- prop node "disabled";;
  node <- assign node "disabled" (or disabled (JBool false));;
  notesInFlow <- prop node "notesInFlow";;
  node <- assign node "notesInFlow" (or notesInFlow (JBool false));;
  ret node.

(** [processedConnections[nodeName] = nodeConnections], the value being
    an object.  Every key becomes an own property but [__proto__]: that
    assignment reaches the accessor of [Object.prototype], which replaces
    the prototype of [processedConnections] and defines no own property,
    so nothing of it is serialized. *)
Definition assignComputed (k : string) (v : Value) (processed : Props) : Props :=
  if String.eqb k "__proto__" then processed else set k v processed.

(** Lines 425-433 of [createWorkflow]. *)
Definition processConnections (connections : Value) : Props :=
  if truthy connections && isObjectLike connections
  then
    fold_left
      (fun processed kv =>
         if isObjectLike (snd kv)
         then assignComputed (fst kv) (snd kv) processed
         else processed)
      (entries connections) []
  else [].

Definition createWorkflow (args : Value) : M string :=
  name <- prop args "name";;
  nodes <- prop args "nodes";;
  connections <- prop args "connections";;
  active <- prop args "active";;
  settings <- prop args "settings";;
  instanceId <- randomBytes 16;;
  let nodes := or nodes (JArr []) in
  let connections := or connections (JObj []) in
  if negb (truthy name) || negb (truthy nodes)
  then throw (Error "Workflow name and nodes are required")
  else
  match nodes with
  | JArr items =>
      processed <- mapIndexed createWorkflow_node items;;
      let workflowData :=
        JObj [("name", name);
              ("nodes", JArr processed);
              ("connections", JObj (processConnections connections));
              ("active", or active (JBool false));
              ("settings", or settings defaultSettings);
              ("staticData", JObj []);
              ("meta", JObj [("instanceId", JStr (hex instanceId))]);
              ("pinData", JObj []);
              ("tags", JArr [])] in
      response <- n8nApi (mkRequest POST "/workflows" JUndefined workflowData);;
      ret ("Workflow created successfully!" ++ newline
             ++ stringifyPretty (data response))
  | _ => throw (Error "Nodes must be an array")
  end.

(** The callback of [updateData.nodes.map] in [updateWorkflow]
    (lines 460-483). *)
Definition updateWorkflow_node (index : nat) (node : Value) : M Value :=
  id <- prop node "id";;
  node <- (if negb (truthy id)
           then fresh <- generateNodeId;; assign node "id" (JStr fresh)
           else ret node);;
  typeVersion <- prop node "typeVersion";;
  node <- (if negb (truthy typeVersion)
           then assign node "typeVersion" (int 1)
           else ret node);;
  position <- prop node "position";;
  node <- (if negb (truthy position) || negb (isArray position)
           then assign node "position" (defaultPosition index)
           else ret node);;
  parameters <- prop node "parameters";;
  node <- (if negb (truthy parameters)
           then assign node "parameters" (JObj [])
           else ret node);;
  disabled <- prop node "disabled";;
  node <- assign node "disabled" (or disabled (JBool false));;
  notesInFlow <- prop node "notesInFlow";;
  node <- assign node "notesInFlow" (or notesInFlow (JBool false));;
  ret node.

(** [{ ...existingWorkflow, ...updateData, settings: .., staticData: ..,
    meta: .., pinData: .., tags: .. }] once the five expressions are
    evaluated. *)
Definition mergeWorkflow (existingWorkflow : Value) (updateData : Props)
    (settings staticData meta pinData tags : Value) : Value :=
  JObj (set "tags" tags
         (set "pinData" pinData
           (set "meta" meta
             (set "staticData" staticData
               (set "settings" settings
                 (spread (spread [] existingWorkflow) (JObj updateData))))))).

(** Lines 459-484 of [updateWorkflow]: the nodes of the update, when
    there are any, are replaced by the processed ones. *)
Definition updateWorkflow_nodes (updateData : Props) : M Props :=
  match get (JObj updateData) "nodes" with
  | JArr items =>
      processed <- mapIndexed updateWorkflow_node items;;
      ret (set "nodes" (JArr processed) updateData)
  | _ => ret updateData
  end.

(** Lines 487-504 of [updateWorkflow]: the object literal that merges the
    existing workflow with the update.  Its expressions are evaluated in
    order, each [||] only as far as needed. *)
Definition updateWorkflow_merge (existingWorkflow : Value) (updateData : Props)
  : M Value :=
  settings <-
    (if truthy (get (JObj updateData) "settings")
     then ret (get (JObj updateData) "settings")
     else existing <- prop existingWorkflow "settings";;
          ret (or existing defaultSettings));;
  staticData <-
    (existing <- prop existingWorkflow "staticData";;
     ret (or existing (JObj [])));;
  meta <-
    (existing <- prop existingWorkflow "meta";;
     if truthy existing then ret existing
     else instanceId <- randomBytes 16;;
          ret (JObj [("instanceId", JStr (hex instanceId))]));;
  pinData <-
    (existing <- prop existingWorkflow "pinData";;
     ret (or existing (JObj [])));;
  tags <-
    (if truthy (get (JObj updateData) "tags")
     then ret (get (JObj updateData) "tags")
     else existing <- prop existingWorkflow "tags";;
          ret (or existing (JArr [])));;
  ret (mergeWorkflow existingWorkflow updateData settings staticData meta pinData tags).

Definition updateWorkflow (args : Value) : M string :=
  id <- destructure args "id";;
  let updateData := remove "id" (entries args) in
  existingResponse <-
    n8nApi (mkRequest GET ("/workflows/" ++ toString id) JUndefined JUndefined);;
  let existingWorkflow := data existingResponse in
  updateData <- updateWorkflow_nodes updateData;;
  workflowData <- updateWorkflow_merge existingWorkflow updateData;;
  response <-
    n8nApi (mkRequest PUT ("/workflows/" ++ toString id) JUndefined workflowData);;
  ret ("Workflow updated successfully!" ++ newline
         ++ stringifyPretty (data response)).

Definition deleteWorkflow (args : Value) : M string :=
  id <- prop args "id";;
  _ <- n8nApi (mkRequest DELETE ("/workflows/" ++ toString id) JUndefined JUndefined);;
  id <- prop args "id";;
  ret ("Workflow " ++ toString id ++ " deleted successfully!").

Definition activationText (active : Value) (response : Response) : string :=
  "Workflow " ++ (if truthy active then "activated" else "deactivated")
    ++ " successfully!" ++ newline ++ stringifyPretty (data response).

Definition activateWorkflow (args : Value) : M string :=
  try
    (id <- prop args "id";;
     active <- prop args "active";;
     response <-
       n8nApi (mkRequest PATCH ("/workflows/" ++ toString id) JUndefined
                 (JObj [("active", active)]));;
     active <- prop args "active";;
     ret (activationText active response))
    (fun error =>
       match error with
       | AxiosError _ (Some failed) =>
           if (status failed =? 405)%Z
           then
             id <- prop args "id";;
             workflow <-
               n8nApi (mkRequest GET ("/workflows/" ++ toString id) JUndefined JUndefined);;
             active <- prop args "active";;
             modified <- assign (data workflow) "active" active;;
             id <- prop args "id";;
             response <-
               n8nApi (mkRequest PUT ("/workflows/" ++ toString id) JUndefined modified);;
             active <- prop args "active";;
             ret (activationText active response)
           else throw error
       | _ => throw error
       end).

Definition executionText (response : Response) : string :=
  "Workflow execution started!" ++ newline ++ stringifyPretty (data response).

(** What [executeWorkflow] resolves to is the text of its result, or
    nothing.  Line 600 of the source ends the object returned by the
    fallback branch with a square bracket and a semicolon, which close
    nothing; the brace of line 601 is the one that closes that object, so
    the [throw error] of line 602 stands inside the [if] of line 587,
    after its [return], and is never reached.  When the test of line 587
    fails the catch block runs to its end and the handler resolves
    [undefined]: the error is dropped. *)
Definition executeWorkflow (args : Value) : M (option string) :=
  input <- prop args "data";;
  let executionData := [("workflowData", or input (JObj []))] in
  try
    (id <- prop args "id";;
     response <-
       n8nApi (mkRequest POST ("/workflows/" ++ toString id ++ "/execute") JUndefined
                 (JObj executionData));;
     ret (Some (executionText response)))
    (fun error =>
       match error with
       | AxiosError _ (Some failed) =>
           if (status failed =? 404)%Z || (status failed =? 405)%Z
           then
             id <- prop args "id";;
             response <-
               n8nApi (mkRequest POST "/workflows/run" JUndefined
                         (JObj (spread [("workflowId", id)] (JObj executionData))));;
             ret (Some (executionText response))
           else ret None
       | _ => ret None
       end).

Definition getExecutions (args : Value) : M string :=
  limit <- prop args "limit";;
  let params := [("limit", or limit (int 20))] in
  workflowId <- prop args "workflowId";;
  let params :=
    if truthy workflowId then set "workflowId" workflowId params else params in
  response <- n8nApi (mkRequest GET "/executions" (JObj params) JUndefined);;
  ret (stringifyPretty (data response)).

(** [return await handler(args)] for a handler that resolves to a result
    with one text item. *)
Definition content (handler : M string) : M (option string) :=
  text <- handler;;
  ret (Some text).

(** The handler of [CallToolRequestSchema]: the text of the one content
    item of the result, or nothing when the tool's handler resolved
    [undefined].  Whatever a handler throws is caught here. *)
Definition callTool (name : string) (args : Value)
  : World -> option string * World :=
  fun w =>
    let handler :=
      if String.eqb name "list_workflows" then content (listWorkflows args)
      else if String.eqb name "get_workflow" then content (getWorkflow args)
      else if String.eqb name "create_workflow" then content (createWorkflow args)
      else if String.eqb name "update_workflow" then content (updateWorkflow args)
      else if String.eqb name "delete_workflow" then content (deleteWorkflow args)
      else if String.eqb name "activate_workflow" then content (activateWorkflow args)
      else if String.eqb name "execute_workflow" then executeWorkflow args
      else if String.eqb name "get_executions" then content (getExecutions args)
      else throw (Error ("Unknown tool: " ++ name)) in
    match handler w with
    | (Returned result, w') => (result, w')
    | (Threw error, w') => (Some ("Error: " ++ formatError error), w')
    end.

End Server.

Import Server.

(** ** Requests the handlers build, and sample worlds *)

Definition workflowUrl (args : Value) : string :=
  "/workflows/" ++ toString (get args "id").

Definition createRequest (workflowData : Value) : Request :=
  mkRequest POST "/workflows" JUndefined workflowData.

Definition fetchRequest (args : Value) : Request :=
  mkRequest GET (workflowUrl args) JUndefined JUndefined.

Definition replaceRequest (args workflowData : Value) : Request :=
  mkRequest PUT (workflowUrl args) JUndefined workflowData.

Definition activatePrimary (args : Value) : Request :=
  mkRequest PATCH (workflowUrl args) JUndefined (JObj [("active", get args "active")]).

Definition executePrimary (args : Value) : Request :=
  mkRequest POST (workflowUrl args ++ "/execute") JUndefined
    (JObj [("workflowData", or (get args "data") (JObj []))]).

Definition executeFallback (args : Value) : Request :=
  mkRequest POST "/workflows/run" JUndefined
    (JObj [("workflowId", get args "id");
           ("workflowData", or (get args "data") (JObj []))]).

Definition executionsRequest (query : Props) : Request :=
  mkRequest GET "/executions" (JObj query) JUndefined.

(** The status a thrown value carries, when it is an axios error with a
    response: [error.response?.status]. *)
Definition failureStatus (error : Thrown) : option Z :=
  match error with
  | AxiosError _ (Some r) => Some (status r)
  | _ => None
  end.

Module Sample.

Definition zeros : nat -> Byte.byte := fun _ => Byte.x00.

Definition replies (r : Request -> Reply) : World :=
  mkWorld zeros 0 (fun _ => r) [].

Definition respond (code : Z) (text : string) (v : Value) : Reply :=
  Responded (mkResponse code text v).

(** A remote system that accepts everything. *)
Definition accepting : World :=
  replies (fun _ => respond 200 "OK" (JObj [("id", JStr "7")])).

(** A stored workflow and a remote system that serves it. *)
Definition stored : Value :=
  JObj [("id", JStr "7"); ("name", JStr "old"); ("active", JBool false);
        ("settings", JObj [("executionOrder", JStr "v0")]);
        ("staticData", JObj [("seen", int 2)]);
        ("pinData", JObj [("n", JArr [])])].

Definition serving : World := replies (fun _ => respond 200 "OK" stored).


(** A remote system without the per-workflow execute endpoint. *)
Definition withoutExecute : World :=
  replies (fun r =>
             if String.eqb (url r) "/workflows/run"
             then respond 200 "OK" (JObj [("executionId", int 11)])
             else respond 404 "Not Found" (JObj [("message", JStr "not found")])).

Definition timingOut : World :=
  replies (fun _ => NoResponse "timeout of 30000ms exceeded").

(** A remote system that fails on every request. *)
Definition failing : World :=
  replies (fun _ => respond 500 "Internal Server Error" JNull).

End Sample.

(** ** The handlers step by step

    Descriptions used by the proofs below: what a handler does after its
    first request, and what the node callbacks leave of a node object. *)

Definition activateFallback (props : Props) (w1 : World) : Outcome string * World :=
  match n8nApi (fetchRequest (JObj props)) w1 with
  | (Returned workflow, w2) =>
      match assign (data workflow) "active" (get (JObj props) "active") w2 with
      | (Returned modified, w3) =>
          match n8nApi (replaceRequest (JObj props) modified) w3 with
          | (Returned response, w4) =>
              (Returned (activationText (get (JObj props) "active") response), w4)
          | (Threw error, w4) => (Threw error, w4)
          end
      | (Threw error, w3) => (Threw error, w3)
      end
  | (Threw error, w2) => (Threw error, w2)
  end.

Definition falsy (v : Value) : bool := negb (truthy v).

Definition malformedPosition (v : Value) : bool :=
  negb (truthy v) || negb (isArray v) || negb (arrayLength v =? 2)%nat.

Definition notAnArray (v : Value) : bool :=
  negb (truthy v) || negb (isArray v).

Definition defaulted (k : string) (absent : Value -> bool) (value : Value)
    (ps : Props) : Props :=
  if absent (get (JObj ps) k) then set k value ps else ps.

Definition flagged (k : string) (ps : Props) : Props :=
  set k (or (get (JObj ps) k) (JBool false)) ps.

Definition normalized (badPosition : Value -> bool) (index : nat) (fresh : string)
    (ps : Props) : Props :=
  flagged "notesInFlow"
    (flagged "disabled"
       (defaulted "parameters" falsy (JObj [])
          (defaulted "position" badPosition (defaultPosition index)
             (defaulted "typeVersion" falsy (int 1)
                (defaulted "id" falsy (JStr fresh) ps))))).

(** The identifier [generateNodeId] gives in a world. *)
Definition nextId (w : World) : string :=
  hex (List.map (fun i => entropy w (drawn w + i)) (seq 0 16)).

(** Worlds that differ at most in how far the random source was read. *)
Definition sameRemote (w w' : World) : Prop :=
  sent w' = sent w /\ remote w' = remote w /\ entropy w' = entropy w.

(** The nodes a caller of create_workflow supplies: the elements of
    [args.nodes], none when it is absent or not an array. *)
Definition callerNodes (args : Value) : list Value :=
  match get args "nodes" with JArr items => items | _ => [] end.

(** The object [createWorkflow] posts, given the instance identifier it
    drew and the processed nodes. *)
Definition createPayload (args : Value) (instanceId : string) (processed : list Value)
  : Value :=
  JObj [("name", get args "name");
        ("nodes", JArr processed);
        ("connections",
         JObj (processConnections (or (get args "connections") (JObj []))));
        ("active", or (get args "active") (JBool false));
        ("settings", or (get args "settings") defaultSettings);
        ("staticData", JObj []);
        ("meta", JObj [("instanceId", JStr instanceId)]);
        ("pinData", JObj []);
        ("tags", JArr [])].

(** The object [updateWorkflow] puts, given the existing workflow, the
    caller's update and the instance identifier drawn if one is needed. *)
Definition updatePayload (existing : Value) (updateData : Props) (instanceId : string)
  : Value :=
  mergeWorkflow existing updateData
    (or (get (JObj updateData) "settings") (or (get existing "settings") defaultSettings))
    (or (get existing "staticData") (JObj []))
    (if truthy (get existing "meta") then get existing "meta"
     else JObj [("instanceId", JStr instanceId)])
    (or (get existing "pinData") (JObj []))
    (or (get (JObj updateData) "tags") (or (get existing "tags") (JArr []))).

(** The update agrees with the arguments on every key but [id] and
    [nodes]. *)
Definition sameFields (props updateData : Props) : Prop :=
  forall k, k <> "id" -> k <> "nodes" ->
            get (JObj updateData) k = get (JObj props) k.

(** The entries of a connections argument that [processConnections]
    copies: those with an object (or array) value under a key other than
    [__proto__]. *)
Definition copied (kv : string * Value) : bool :=
  isObjectLike (snd kv) && negb (String.eqb (fst kv) "__proto__").

(** [`HTTP ${status} ${statusText}`] for a response. *)
Definition httpLine (code : Z) (text : string) : string :=
  "HTTP " ++ decimal code ++ " " ++ text.

(** A node that passes the validation of creation: an object with a
    truthy [name] and a truthy [type]. *)
Definition validNode (node : Value) : Prop :=
  exists ps,
    node = JObj ps
    /\ truthy (get node "name") = true
    /\ truthy (get node "type") = true.

(** ** Further descriptions used by the properties *)

(** The tools the dispatcher knows: the cases of its [switch], which are
    the names of the catalog (lines 97-239, 265-280). *)
Definition toolNames : list string :=
  ["list_workflows"; "get_workflow"; "create_workflow"; "update_workflow";
   "delete_workflow"; "activate_workflow"; "execute_workflow"; "get_executions"].

(** The request of [deleteWorkflow]. *)
Definition removeRequest (args : Value) : Request :=
  mkRequest DELETE (workflowUrl args) JUndefined JUndefined.

(** The request of [listWorkflows], given the query. *)
Definition listRequest (query : Props) : Request :=
  mkRequest GET "/workflows" (JObj query) JUndefined.

(** What the callback of creation throws for a node without a required
    field (lines 396, 399). *)
Definition missingField (index : nat) (field : string) : Thrown :=
  Error ("Node at index " ++ decimal (Z.of_nat index)
           ++ " is missing required '" ++ field ++ "' field")%string.

(** The properties the node callbacks write. *)
Definition normalizedKeys : list string :=
  ["id"; "typeVersion"; "position"; "parameters"; "disabled"; "notesInFlow"].

(** The properties of the object [createWorkflow] posts, in order
    (lines 357-375). *)
Definition payloadKeys : list string :=
  ["name"; "nodes"; "connections"; "active"; "settings"; "staticData"; "meta";
   "pinData"; "tags"].

(** The properties [updateWorkflow] sets after the two spreads
    (lines 491-503). *)
Definition forcedKeys : list string :=
  ["settings"; "staticData"; "meta"; "pinData"; "tags"].

(** [v === null || v === undefined]: the values whose properties cannot
    be read. *)
Definition nullish (v : Value) : bool :=
  match v with JUndefined | JNull => true | _ => false end.

(** A lower-case hexadecimal digit. *)
Definition isHexDigit (c : ascii) : bool :=
  let n := N_of_ascii c in
  ((48 <=? n) && (n <=? 57) || (97 <=? n) && (n <=? 102))%N.

(** Every character of a string passes a test. *)
Fixpoint allChars (f : ascii -> bool) (s : string) : bool :=
  match s with
  | EmptyString => true
  | String c rest => f c && allChars f rest
  end.

(** * Properties *)

Local Open Scope list_scope.

(** ** Own properties *)

Lemma lookup_set_same (k : string) (v : Value) (ps : Props) :
  lookup k (set k v ps) = Some v.
Proof.
  induction ps as [|[k' v'] rest IH]; simpl.
  - now rewrite String.eqb_refl.
  - destruct (String.eqb k k') eqn:E; simpl.
    + now rewrite String.eqb_refl.
    + now rewrite E.
Qed.

Lemma lookup_set_other (k k' : string) (v : Value) (ps : Props) :
  k <> k' -> lookup k (set k' v ps) = lookup k ps.
Proof.
  intros Hne. apply String.eqb_neq in Hne.
  induction ps as [|[k0 v0] rest IH]; simpl.
  - now rewrite Hne.
  - destruct (String.eqb k' k0) eqn:E; simpl.
    + apply String.eqb_eq in E. subst k0. now rewrite Hne.
    + now rewrite IH.
Qed.

Lemma get_set_same (k : string) (v : Value) (ps : Props) :
  get (JObj (set k v ps)) k = v.
Proof. simpl. now rewrite lookup_set_same. Qed.

Lemma get_set_other (k k' : string) (v : Value) (ps : Props) :
  k <> k' -> get (JObj (set k' v ps)) k = get (JObj ps) k.
Proof. intros Hne. simpl. now rewrite lookup_set_other. Qed.

Lemma lookup_remove_same (k : string) (ps : Props) :
  lookup k (remove k ps) = None.
Proof.
  induction ps as [|[k' v'] rest IH]; simpl; [reflexivity|].
  destruct (String.eqb k k') eqn:E; simpl; [assumption|].
  now rewrite E.
Qed.

Lemma lookup_remove_other (k k' : string) (ps : Props) :
  k <> k' -> lookup k (remove k' ps) = lookup k ps.
Proof.
  intros Hne. apply String.eqb_neq in Hne.
  induction ps as [|[k0 v0] rest IH]; simpl; [reflexivity|].
  destruct (String.eqb k' k0) eqn:E; simpl.
  - apply String.eqb_eq in E. subst k0. now rewrite Hne.
  - now rewrite IH.
Qed.

Lemma or_truthy (a b : Value) : truthy a = true -> or a b = a.
Proof. unfold or. now intros ->. Qed.

Lemma or_falsy (a b : Value) : truthy a = false -> or a b = b.
Proof. unfold or. now intros ->. Qed.

(** ** Requests *)

Lemma n8nApi_sent (r : Request) (w : World) :
  sent (snd (n8nApi r w)) = sent w ++ [r].
Proof.
  unfold n8nApi.
  destruct (remote w (sent w) r) as [response|message]; [|reflexivity].
  now destruct (validateStatus (status response)).
Qed.

Lemma n8nApi_world (r : Request) (w : World) :
  snd (n8nApi r w) = sending r w.
Proof.
  unfold n8nApi.
  destruct (remote w (sent w) r) as [response|message]; [|reflexivity].
  now destruct (validateStatus (status response)).
Qed.

Lemma n8nApi_threw_status (r : Request) (w w' : World) (e : Thrown) :
  n8nApi r w = (Threw e, w') ->
  exists message response, e = AxiosError message response.
Proof.
  unfold n8nApi.
  destruct (remote w (sent w) r) as [response|message].
  - destruct (validateStatus (status response)); intros H; inversion H; eauto.
  - intros H; inversion H; eauto.
Qed.

Lemma sent_grows_not_same (l : list Request) (r : Request) (rest : list Request) :
  l <> l ++ r :: rest.
Proof.
  intros H. apply (f_equal (@List.length Request)) in H.
  rewrite List.length_app in H. simpl in H. lia.
Qed.

(** ** Node callbacks *)

Ltac step_in H :=
  match type of H with
  | context [if ?c then _ else _] =>
      destruct c eqn:?; cbv beta iota in H; try discriminate H
  end.

Ltac step :=
  match goal with
  | |- context [if ?c then _ else _] => destruct c eqn:?; cbv beta iota
  end.

Ltac reuse_tests :=
  repeat match goal with
         | E : ?c = _ |- context [?c] => rewrite E
         end.

Ltac settle_tests :=
  rewrite ?get_set_other in * by discriminate;
  repeat (progress reuse_tests; rewrite ?get_set_other by discriminate).

Lemma sameRemote_refl (w : World) : sameRemote w w.
Proof. now repeat split. Qed.

Lemma sameRemote_trans (w1 w2 w3 : World) :
  sameRemote w1 w2 -> sameRemote w2 w3 -> sameRemote w1 w3.
Proof.
  intros [H1 [H2 H3]] [H4 [H5 H6]]. repeat split; congruence.
Qed.

Local Opaque hex get.

Lemma createWorkflow_node_returned (index : nat) (node node' : Value) (w w' : World) :
  createWorkflow_node index node w = (Returned node', w') ->
  exists ps,
    node = JObj ps
    /\ truthy (get node "name") = true
    /\ truthy (get node "type") = true
    /\ node' = JObj (normalized malformedPosition index (nextId w) ps).
Proof.
  destruct node as [| |b|n|s|items|ps];
    try (intros H; cbv in H; discriminate).
  intros H. exists ps. split; [reflexivity|].
  cbv [createWorkflow_node bind prop assign generateNodeId randomBytes ret throw] in H.
  repeat step_in H.
  all: injection H as <- <-.
  all: unfold normalized, defaulted, flagged, falsy, malformedPosition, nextId.
  all: settle_tests.
  all: rewrite ?negb_false_iff in *; repeat split; try assumption; reflexivity.
Qed.

Lemma createWorkflow_node_sameRemote (index : nat) (node : Value) (w : World) :
  sameRemote w (snd (createWorkflow_node index node w)).
Proof.
  destruct node as [| |b|n|s|items|ps]; try (cbv; now repeat split).
  cbv [createWorkflow_node bind prop assign generateNodeId randomBytes ret throw].
  repeat step; now repeat split.
Qed.

Lemma updateWorkflow_node_returned (index : nat) (node node' : Value) (w w' : World) :
  updateWorkflow_node index node w = (Returned node', w') ->
  (exists ps,
      node = JObj ps
      /\ node' = JObj (normalized notAnArray index (nextId w) ps))
  \/ (exists items, node = JArr items /\ node' = node).
Proof.
  destruct node as [| |b|n|s|items|ps];
    try (intros H; cbv in H; discriminate).
  - intros H. right. exists items. split; [reflexivity|].
    cbv [updateWorkflow_node bind prop assign generateNodeId randomBytes ret throw] in H.
    repeat step_in H. all: now injection H as <- <-.
  - intros H. left. exists ps. split; [reflexivity|].
    cbv [updateWorkflow_node bind prop assign generateNodeId randomBytes ret throw] in H.
    repeat step_in H.
    all: injection H as <- <-.
    all: unfold normalized, defaulted, flagged, falsy, notAnArray, nextId.
    all: settle_tests.
    all: reflexivity.
Qed.

Lemma updateWorkflow_node_sameRemote (index : nat) (node : Value) (w : World) :
  sameRemote w (snd (updateWorkflow_node index node w)).
Proof.
  destruct node as [| |b|n|s|items|ps]; try (cbv; now repeat split).
  cbv [updateWorkflow_node bind prop assign generateNodeId randomBytes ret throw].
  repeat step; now repeat split.
Qed.

Local Transparent hex get.

(** ** [Array.prototype.map] with a throwing callback *)

Section MapFrom.

Context {A B : Type} (f : nat -> A -> M B).

Lemma mapFrom_sameRemote :
  (forall index x w, sameRemote w (snd (f index x w))) ->
  forall l index w, sameRemote w (snd (mapFrom f index l w)).
Proof.
  intros Hf. induction l as [|x rest IH]; intros index w; simpl.
  - apply sameRemote_refl.
  - unfold bind. pose proof (Hf index x w) as H1.
    destruct (f index x w) as [[y|e] w1]; simpl in *; [|exact H1].
    pose proof (IH (S index) w1) as H2.
    destruct (mapFrom f (S index) rest w1) as [[ys|e] w2]; simpl in *;
      eapply sameRemote_trans; eauto.
Qed.

Lemma mapFrom_returned (l : list A) :
  forall index w l' w',
    mapFrom f index l w = (Returned l', w') ->
    List.length l' = List.length l
    /\ forall j y, nth_error l' j = Some y ->
         exists x wa wb,
           nth_error l j = Some x /\ f (index + j) x wa = (Returned y, wb).
Proof.
  induction l as [|x rest IH]; intros index w l' w' H; simpl in H.
  - injection H as <- <-. split; [reflexivity|].
    intros [|j] y Hj; discriminate.
  - unfold bind in H.
    destruct (f index x w) as [[y0|e] w1] eqn:Hx; [|discriminate].
    destruct (mapFrom f (S index) rest w1) as [[ys|e] w2] eqn:Hrest; [|discriminate].
    injection H as <- <-.
    destruct (IH _ _ _ _ Hrest) as [Hlen Hnth].
    split; [simpl; now rewrite Hlen|].
    intros [|j] y Hj; simpl in Hj.
    + injection Hj as <-. exists x, w, w1. rewrite Nat.add_0_r. now split.
    + destruct (Hnth j y Hj) as [x' [wa [wb [Hx' Hf]]]].
      exists x', wa, wb. split; [exact Hx'|].
      now rewrite <- plus_n_Sm.
Qed.

End MapFrom.

(** ** create_workflow *)

Lemma or_nodes_array (args : Value) (items : list Value) :
  or (get args "nodes") (JArr []) = JArr items -> callerNodes args = items.
Proof.
  unfold or, callerNodes.
  destruct (get args "nodes") as [| |b|n|s|l|ps]; simpl;
    try (intros H; now injection H as <-).
  - destruct b; simpl; [discriminate|]. intros H; now injection H as <-.
  - destruct n as [z|t]; simpl; [|discriminate].
    destruct (z =? 0)%Z; simpl; [|discriminate]. intros H; now injection H as <-.
  - destruct s; simpl; [|discriminate]. intros H; now injection H as <-.
  - discriminate.
Qed.

Lemma createWorkflow_cases (props : Props) (w : World) :
  (sent (snd (createWorkflow (JObj props) w)) = sent w
   /\ exists e, fst (createWorkflow (JObj props) w) = Threw e)
  \/ (exists processed w0 w1,
         truthy (get (JObj props) "name") = true
         /\ mapIndexed createWorkflow_node (callerNodes (JObj props)) w0
            = (Returned processed, w1)
         /\ sent (snd (createWorkflow (JObj props) w))
            = sent w ++ [createRequest (createPayload (JObj props) (nextId w) processed)]).
Proof.
  cbv [createWorkflow bind prop ret throw randomBytes].
  destruct (negb (truthy (get (JObj props) "name"))
            || negb (truthy (or (get (JObj props) "nodes") (JArr [])))) eqn:Hreq.
  { left. split; [reflexivity|]. eexists. reflexivity. }
  apply orb_false_iff in Hreq. destruct Hreq as [Hname _].
  apply negb_false_iff in Hname.
  destruct (or (get (JObj props) "nodes") (JArr [])) as [| |b|n|s|items|ps] eqn:Hnodes;
    try (left; split; [reflexivity|]; eexists; reflexivity).
  apply or_nodes_array in Hnodes.
  set (w0 := mkWorld (entropy w) (drawn w + 16) (remote w) (sent w)).
  pose proof (mapFrom_sameRemote createWorkflow_node createWorkflow_node_sameRemote
                items 0 w0) as Hsame.
  unfold mapIndexed.
  destruct (mapFrom createWorkflow_node 0 items w0) as [[processed|e] w1] eqn:Hmap.
  - right. exists processed, w0, w1. split; [exact Hname|]. split.
    + rewrite Hnodes. exact Hmap.
    + destruct Hsame as [Hs _]. simpl in Hs.
      match goal with
      | |- context [n8nApi ?r w1] => pose proof (n8nApi_sent r w1) as Hp
      end.
      destruct (n8nApi _ w1) as [[response|e] w2]; simpl in *;
        rewrite Hp, Hs; reflexivity.
  - left. destruct Hsame as [Hs _]. simpl in *. split; [exact Hs|].
    eexists. reflexivity.
Qed.

Lemma get_defaulted_same (k : string) (absent : Value -> bool) (x : Value) (ps : Props) :
  get (JObj (defaulted k absent x ps)) k
  = if absent (get (JObj ps) k) then x else get (JObj ps) k.
Proof.
  unfold defaulted. destruct (absent (get (JObj ps) k)); [|reflexivity].
  apply get_set_same.
Qed.

Lemma get_defaulted_other (k k' : string) (absent : Value -> bool) (x : Value)
    (ps : Props) :
  k <> k' -> get (JObj (defaulted k' absent x ps)) k = get (JObj ps) k.
Proof.
  intros Hne. unfold defaulted. destruct (absent (get (JObj ps) k')); [|reflexivity].
  now apply get_set_other.
Qed.

Lemma get_flagged_other (k k' : string) (ps : Props) :
  k <> k' -> get (JObj (flagged k' ps)) k = get (JObj ps) k.
Proof. intros Hne. unfold flagged. now apply get_set_other. Qed.

Ltac through_normalized :=
  unfold normalized;
  rewrite ?get_flagged_other by discriminate;
  rewrite ?get_defaulted_other by discriminate;
  rewrite get_defaulted_same;
  rewrite ?get_defaulted_other by discriminate.

Lemma normalized_id (bad : Value -> bool) (i : nat) (fresh : string) (ps : Props) :
  get (JObj (normalized bad i fresh ps)) "id"
  = if falsy (get (JObj ps) "id") then JStr fresh else get (JObj ps) "id".
Proof. now through_normalized. Qed.

Lemma normalized_typeVersion (bad : Value -> bool) (i : nat) (fresh : string)
    (ps : Props) :
  get (JObj (normalized bad i fresh ps)) "typeVersion"
  = or (get (JObj ps) "typeVersion") (int 1).
Proof.
  through_normalized. unfold falsy, or.
  now destruct (truthy (get (JObj ps) "typeVersion")).
Qed.

Lemma normalized_position (bad : Value -> bool) (i : nat) (fresh : string)
    (ps : Props) :
  get (JObj (normalized bad i fresh ps)) "position"
  = if bad (get (JObj ps) "position") then defaultPosition i
    else get (JObj ps) "position".
Proof. now through_normalized. Qed.

Lemma normalized_parameters (bad : Value -> bool) (i : nat) (fresh : string)
    (ps : Props) :
  get (JObj (normalized bad i fresh ps)) "parameters"
  = or (get (JObj ps) "parameters") (JObj []).
Proof.
  through_normalized. unfold falsy, or.
  now destruct (truthy (get (JObj ps) "parameters")).
Qed.

Lemma hex_length (bytes : list Byte.byte) :
  String.length (hex bytes) = 2 * List.length bytes.
Proof.
  induction bytes as [|b rest IH]; simpl; [reflexivity|].
  rewrite IH. lia.
Qed.

Lemma nextId_length (w : World) : String.length (nextId w) = 32.
Proof.
  unfold nextId. rewrite hex_length, List.length_map, List.length_seq. reflexivity.
Qed.

Lemma hexDigit_isHexDigit (n : N) : isHexDigit (hexDigit n) = true.
Proof.
  destruct n as [|p]; [reflexivity|].
  do 4 (destruct p as [p|p|]; try reflexivity).
Qed.

Lemma hex_allChars (bytes : list Byte.byte) : allChars isHexDigit (hex bytes) = true.
Proof.
  induction bytes as [|b rest IH]; [reflexivity|].
  simpl. now rewrite !hexDigit_isHexDigit, IH.
Qed.

Lemma nextId_hex (w : World) : allChars isHexDigit (nextId w) = true.
Proof. unfold nextId. apply hex_allChars. Qed.

Lemma truthy_or_default (v d : Value) : truthy d = true -> truthy (or v d) = true.
Proof. unfold or. intros Hd. now destruct (truthy v) eqn:E. Qed.

Lemma wellFormed_position (v : Value) :
  malformedPosition v = false -> exists a b, v = JArr [a; b].
Proof.
  unfold malformedPosition.
  destruct v as [| |b|n|s|items|ps]; simpl; try discriminate.
  - now rewrite orb_true_r.
  - now rewrite orb_true_r.
  - now rewrite orb_true_r.
  - destruct items as [|a [|b [|c rest]]]; simpl; try discriminate.
    intros _. now exists a, b.
Qed.

Lemma createWorkflow_payload (props : Props) (w : World) (payload : Value) :
  sent (snd (createWorkflow (JObj props) w)) = sent w ++ [createRequest payload] ->
  exists processed,
    payload = createPayload (JObj props) (nextId w) processed
    /\ truthy (get (JObj props) "name") = true
    /\ List.length processed = List.length (callerNodes (JObj props))
    /\ forall i node',
        nth_error processed i = Some node' ->
        exists ps wa,
          nth_error (callerNodes (JObj props)) i = Some (JObj ps)
          /\ truthy (get (JObj ps) "name") = true
          /\ truthy (get (JObj ps) "type") = true
          /\ node' = JObj (normalized malformedPosition i (nextId wa) ps).
Proof.
  intros Hsent.
  destruct (createWorkflow_cases props w)
    as [[Hnone _] | [processed [w0 [w1 [Hname [Hmap Hposted]]]]]].
  - rewrite Hnone in Hsent. now apply sent_grows_not_same in Hsent.
  - rewrite Hposted in Hsent. apply app_inj_tail in Hsent.
    destruct Hsent as [_ Hreq]. injection Hreq as <-.
    exists processed. split; [reflexivity|]. split; [exact Hname|].
    destruct (mapFrom_returned createWorkflow_node _ _ _ _ _ Hmap) as [Hlen Hnth].
    split; [exact Hlen|].
    intros i node' Hi.
    destruct (Hnth i node' Hi) as [node [wa [wb [Hnode Hrun]]]].
    destruct (createWorkflow_node_returned _ _ _ _ _ Hrun)
      as [ps [-> [Hn [Ht ->]]]].
    now exists ps, wa.
Qed.

(** ** get_executions *)

(** C10: the query of get_executions carries limit 20 whenever the
    caller's [limit] is falsy (absent, 0, the empty string, null, false),
    and an empty-string [workflowId] leaves the handler doing exactly
    what it does when [workflowId] is absent: the query has the one key
    [limit]. *)
Theorem C10_getExecutions_falsy_arguments (props : Props) (w : World) :
  exists query,
    sent (snd (getExecutions (JObj props) w)) = sent w ++ [executionsRequest query]
    /\ (truthy (get (JObj props) "limit") = false ->
        lookup "limit" query = Some (int 20))
    /\ (get (JObj props) "workflowId" = JStr EmptyString ->
        lookup "workflowId" query = None
        /\ getExecutions (JObj props) w
           = getExecutions (JObj (remove "workflowId" props)) w).
Proof.
  unfold getExecutions, bind, prop, ret.
  set (limit := get (JObj props) "limit").
  set (workflowId := get (JObj props) "workflowId").
  exists (if truthy workflowId
          then set "workflowId" workflowId [("limit", or limit (int 20))]
          else [("limit", or limit (int 20))]).
  split; [|split].
  - pose proof (n8nApi_sent
                  (executionsRequest
                     (if truthy workflowId
                      then set "workflowId" workflowId [("limit", or limit (int 20))]
                      else [("limit", or limit (int 20))])) w) as Hs.
    unfold executionsRequest in *.
    destruct (n8nApi _ w) as [[response|e] w1]; exact Hs.
  - intros Hl. rewrite (or_falsy _ _ Hl).
    now destruct (truthy workflowId).
  - intros Hw. subst limit.
    assert (Hrm : get (JObj (remove "workflowId" props)) "workflowId" = JUndefined).
    { simpl. now rewrite lookup_remove_same. }
    assert (Hlim : get (JObj (remove "workflowId" props)) "limit"
                   = get (JObj props) "limit").
    { simpl. now rewrite lookup_remove_other. }
    rewrite Hrm, Hlim. fold workflowId. rewrite Hw. simpl. split; reflexivity.
Qed.

Lemma C10_getExecutions_falsy_arguments_witness :
  exists query,
    sent (snd (getExecutions
                 (JObj [("limit", int 0); ("workflowId", JStr EmptyString)])
                 Sample.accepting))
    = [executionsRequest query]
    /\ lookup "limit" query = Some (int 20)
    /\ lookup "workflowId" query = None.
Proof.
  destruct (C10_getExecutions_falsy_arguments
              [("limit", int 0); ("workflowId", JStr EmptyString)] Sample.accepting)
    as [query [Hs [Hl Hw]]].
  exists query. split; [exact Hs|]. split.
  - apply Hl. reflexivity.
  - apply Hw. reflexivity.
Defined.

(** ** execute_workflow *)

Lemma executeWorkflow_unfold (props : Props) (w : World) :
  executeWorkflow (JObj props) w
  = match n8nApi (executePrimary (JObj props)) w with
    | (Returned response, w1) => (Returned (Some (executionText response)), w1)
    | (Threw error, w1) =>
        match failureStatus error with
        | Some code =>
            if (code =? 404)%Z || (code =? 405)%Z
            then
              match n8nApi (executeFallback (JObj props)) w1 with
              | (Returned response, w2) =>
                  (Returned (Some (executionText response)), w2)
              | (Threw error', w2) => (Threw error', w2)
              end
            else (Returned None, w1)
        | None => (Returned None, w1)
        end
    end.
Proof.
  unfold executeWorkflow, try, bind, prop, ret, throw.
  change (n8nApi (mkRequest POST ("/workflows/" ++ toString (get (JObj props) "id")
                                    ++ "/execute")%string
                    JUndefined
                    (JObj [("workflowData", or (get (JObj props) "data") (JObj []))])) w)
    with (n8nApi (executePrimary (JObj props)) w).
  destruct (n8nApi (executePrimary (JObj props)) w) as [[response|error] w1];
    [reflexivity|].
  destruct error as [m|m|m [failed|]]; simpl; try reflexivity.
  destruct ((status failed =? 404)%Z || (status failed =? 405)%Z); [|reflexivity].
  change (n8nApi _ w1) with (n8nApi (executeFallback (JObj props)) w1).
  now destruct (n8nApi (executeFallback (JObj props)) w1) as [[response|error'] w2].
Qed.

(** A primary POST that fails otherwise than with status 404 or 405 ends
    the handler without a result and without an error: only that POST
    was sent. *)
Lemma executeWorkflow_drops_other_failures (props : Props) (w w1 : World)
    (error : Thrown) :
  n8nApi (executePrimary (JObj props)) w = (Threw error, w1) ->
  failureStatus error <> Some 404%Z -> failureStatus error <> Some 405%Z ->
  executeWorkflow (JObj props) w = (Returned None, w1)
  /\ sent w1 = sent w ++ [executePrimary (JObj props)].
Proof.
  intros H H404 H405.
  pose proof (n8nApi_sent (executePrimary (JObj props)) w) as Hsent.
  rewrite H in Hsent. split; [|exact Hsent].
  rewrite executeWorkflow_unfold, H.
  destruct (failureStatus error) as [code|]; [|reflexivity].
  destruct (Z.eqb_spec code 404) as [->|_]; [congruence|].
  destruct (Z.eqb_spec code 405) as [->|_]; [congruence|].
  reflexivity.
Qed.

(** C8: a failure of the primary POST that is neither 404 nor 405 does not
    propagate.  execute_workflow for workflow 7, answered 500 by the
    remote system, sends the one POST and resolves without a result and
    without an error, and so does it when the request times out; the
    caller of the tool gets no text at all, where a failing get_workflow
    gives the error text. *)
Theorem C8_other_failure_dropped :
  executeWorkflow (JObj [("id", JStr "7")]) Sample.failing
  = (Returned None,
     sending (executePrimary (JObj [("id", JStr "7")])) Sample.failing)
  /\ fst (n8nApi (executePrimary (JObj [("id", JStr "7")])) Sample.failing)
     = Threw (AxiosError "Request failed with status code 500"
                (Some (mkResponse 500 "Internal Server Error" JNull)))
  /\ fst (executeWorkflow (JObj [("id", JStr "7")]) Sample.timingOut) = Returned None
  /\ fst (callTool "execute_workflow" (JObj [("id", JStr "7")]) Sample.failing) = None
  /\ fst (callTool "get_workflow" (JObj [("id", JStr "7")]) Sample.failing)
     = Some "Error: HTTP 500 Internal Server Error".
Proof. repeat split. Qed.

(** ** activate_workflow *)

Lemma activateWorkflow_unfold (props : Props) (w : World) :
  activateWorkflow (JObj props) w
  = match n8nApi (activatePrimary (JObj props)) w with
    | (Returned response, w1) =>
        (Returned (activationText (get (JObj props) "active") response), w1)
    | (Threw error, w1) =>
        match failureStatus error with
        | Some code =>
            if (code =? 405)%Z then activateFallback props w1 else (Threw error, w1)
        | None => (Threw error, w1)
        end
    end.
Proof.
  unfold activateWorkflow, activateFallback, try, bind, prop, ret, throw.
  change (n8nApi (mkRequest PATCH ("/workflows/" ++ toString (get (JObj props) "id"))%string
                    JUndefined (JObj [("active", get (JObj props) "active")])) w)
    with (n8nApi (activatePrimary (JObj props)) w).
  destruct (n8nApi (activatePrimary (JObj props)) w) as [[response|error] w1];
    [reflexivity|].
  destruct error as [m|m|m [failed|]]; simpl; try reflexivity.
  destruct (status failed =? 405)%Z; [|reflexivity].
  change (n8nApi (mkRequest GET _ _ _) w1) with (n8nApi (fetchRequest (JObj props)) w1).
  destruct (n8nApi (fetchRequest (JObj props)) w1) as [[workflow|error'] w2];
    [|reflexivity].
  destruct (assign (data workflow) "active" (get (JObj props) "active") w2)
    as [[modified|error'] w3]; [|reflexivity].
  change (n8nApi (mkRequest PUT _ _ _) w3)
    with (n8nApi (replaceRequest (JObj props) modified) w3).
  now destruct (n8nApi (replaceRequest (JObj props) modified) w3)
    as [[response|error'] w4].
Qed.




(** ** create_workflow: what is validated *)

(** C1, as amended.  When the [name] argument is missing or falsy (the
    empty string included), create_workflow throws "Workflow name and
    nodes are required" and sends nothing.  Whatever it sends is one POST
    to [/workflows], and the workflow in it has a truthy name and an
    array of nodes -- which can be empty. *)
Theorem C1_createWorkflow_requires_name (props : Props) (w : World) :
  (truthy (get (JObj props) "name") = false ->
   fst (createWorkflow (JObj props) w)
   = Threw (Error "Workflow name and nodes are required")
   /\ sent (snd (createWorkflow (JObj props) w)) = sent w)
  /\ (sent (snd (createWorkflow (JObj props) w)) = sent w
      \/ exists payload,
          sent (snd (createWorkflow (JObj props) w)) = sent w ++ [createRequest payload])
  /\ (forall payload,
         sent (snd (createWorkflow (JObj props) w)) = sent w ++ [createRequest payload] ->
         truthy (get payload "name") = true
         /\ exists nodes, get payload "nodes" = JArr nodes).
Proof.
  split; [|split].
  - intros Hname.
    cbv [createWorkflow bind prop ret throw randomBytes].
    rewrite Hname. simpl. split; reflexivity.
  - destruct (createWorkflow_cases props w)
      as [[Hnone _] | [processed [w0 [w1 [_ [_ Hposted]]]]]].
    + now left.
    + right. eexists. exact Hposted.
  - intros payload Hsent.
    destruct (createWorkflow_payload props w payload Hsent)
      as [processed [-> [Hname _]]].
    split; [exact Hname|]. now exists processed.
Qed.

Lemma C1_createWorkflow_requires_name_witness :
  (fst (createWorkflow (JObj [("name", JStr EmptyString);
                              ("nodes", JArr [JObj [("name", JStr "a")]])])
          Sample.accepting)
   = Threw (Error "Workflow name and nodes are required")
   /\ sent (snd (createWorkflow (JObj [("name", JStr EmptyString);
                                       ("nodes", JArr [JObj [("name", JStr "a")]])])
                  Sample.accepting)) = [])
  /\ (truthy (get (createPayload (JObj [("name", JStr "w"); ("nodes", JArr [])])
                     "00000000000000000000000000000000" [])
                "name") = true
      /\ exists nodes,
          get (createPayload (JObj [("name", JStr "w"); ("nodes", JArr [])])
                 "00000000000000000000000000000000" [])
            "nodes" = JArr nodes).
Proof.
  split.
  - apply (proj1 (C1_createWorkflow_requires_name
                    [("name", JStr EmptyString);
                     ("nodes", JArr [JObj [("name", JStr "a")]])]
                    Sample.accepting)).
    reflexivity.
  - apply (proj2 (proj2 (C1_createWorkflow_requires_name
                           [("name", JStr "w"); ("nodes", JArr [])]
                           Sample.accepting))).
    reflexivity.
Defined.

(** C1, as stated, fails: with a name and an empty [nodes] array the
    handler does not throw; it posts a workflow whose node sequence is
    empty. *)
Lemma C1_counterexample :
  createWorkflow (JObj [("name", JStr "w"); ("nodes", JArr [])]) Sample.accepting
  = (Returned ("Workflow created successfully!" ++ newline
                 ++ stringifyPretty (JObj [("id", JStr "7")]))%string,
     mkWorld Sample.zeros 16 (remote Sample.accepting)
       [createRequest
          (JObj [("name", JStr "w");
                 ("nodes", JArr []);
                 ("connections", JObj []);
                 ("active", JBool false);
                 ("settings", defaultSettings);
                 ("staticData", JObj []);
                 ("meta", JObj [("instanceId", JStr "00000000000000000000000000000000")]);
                 ("pinData", JObj []);
                 ("tags", JArr [])])]).
Proof. reflexivity. Qed.

(** ** create_workflow: the nodes that are posted *)

(** C4, as amended.  In the workflow create_workflow posts, the i-th node
    comes from the i-th node object of the caller and has: a truthy id
    (the caller's when truthy, else a generated string of 32 lower-case
    hexadecimal digits);
    a truthy typeVersion (the caller's when truthy, else 1); a position
    that is an array of two elements (the caller's when it is such an
    array, else [250 + 250 i, 300]); truthy parameters (the caller's when
    truthy, else the empty object).  A truthy value of the caller is kept
    as it is, whatever its type. *)
Theorem C4_created_nodes_normalized (props : Props) (w : World) (payload : Value) :
  sent (snd (createWorkflow (JObj props) w)) = sent w ++ [createRequest payload] ->
  exists nodes,
    get payload "nodes" = JArr nodes
    /\ List.length nodes = List.length (callerNodes (JObj props))
    /\ forall i node',
        nth_error nodes i = Some node' ->
        exists node,
          nth_error (callerNodes (JObj props)) i = Some node
          /\ truthy (get node' "id") = true
          /\ (truthy (get node "id") = true -> get node' "id" = get node "id")
          /\ (truthy (get node "id") = false ->
              exists fresh,
                get node' "id" = JStr fresh
                /\ String.length fresh = 32
                /\ allChars isHexDigit fresh = true)
          /\ truthy (get node' "typeVersion") = true
          /\ get node' "typeVersion" = or (get node "typeVersion") (int 1)
          /\ (exists a b, get node' "position" = JArr [a; b])
          /\ get node' "position"
             = (if malformedPosition (get node "position")
                then JArr [int (250 + 250 * Z.of_nat i); int 300]
                else get node "position")
          /\ truthy (get node' "parameters") = true
          /\ get node' "parameters" = or (get node "parameters") (JObj []).
Proof.
  intros Hsent.
  destruct (createWorkflow_payload props w payload Hsent)
    as [processed [-> [_ [Hlen Hnth]]]].
  exists processed. split; [reflexivity|]. split; [exact Hlen|].
  intros i node' Hi.
  destruct (Hnth i node' Hi) as [ps [wa [Hnode [_ [_ ->]]]]].
  exists (JObj ps). split; [exact Hnode|].
  rewrite normalized_id, normalized_typeVersion, normalized_position,
    normalized_parameters.
  assert (Hdefault : defaultPosition i = JArr [int (250 + 250 * Z.of_nat i); int 300]).
  { unfold defaultPosition. now rewrite Z.mul_comm. }
  unfold falsy.
  repeat split.
  - destruct (truthy (get (JObj ps) "id")) eqn:E; simpl; [exact E|].
    pose proof (nextId_length wa) as Hl.
    now destruct (nextId wa).
  - now intros ->.
  - intros ->. simpl. exists (nextId wa).
    split; [reflexivity|]. split; [apply nextId_length|apply nextId_hex].
  - now apply truthy_or_default.
  - destruct (malformedPosition (get (JObj ps) "position")) eqn:E.
    + rewrite Hdefault. eauto.
    + now apply wellFormed_position.
  - now rewrite Hdefault.
  - now apply truthy_or_default.
Qed.

Lemma C4_created_nodes_normalized_witness :
  exists nodes node',
    nth_error nodes 0 = Some node'
    /\ (exists fresh,
           get node' "id" = JStr fresh
           /\ String.length fresh = 32
           /\ allChars isHexDigit fresh = true)
    /\ get node' "typeVersion" = int 7
    /\ get node' "position" = JArr [int 250; int 300]
    /\ get node' "parameters" = JObj [].
Proof.
  destruct (C4_created_nodes_normalized
              [("name", JStr "w");
               ("nodes", JArr [JObj [("name", JStr "a"); ("type", JStr "t");
                                     ("typeVersion", int 7)]])]
              Sample.accepting
              (createPayload
                 (JObj [("name", JStr "w");
                        ("nodes", JArr [JObj [("name", JStr "a"); ("type", JStr "t");
                                              ("typeVersion", int 7)]])])
                 "00000000000000000000000000000000"
                 [JObj [("name", JStr "a"); ("type", JStr "t");
                        ("typeVersion", int 7);
                        ("id", JStr "00000000000000000000000000000000");
                        ("position", JArr [int 250; int 300]);
                        ("parameters", JObj []);
                        ("disabled", JBool false);
                        ("notesInFlow", JBool false)]])
              eq_refl)
    as [nodes [Hnodes [Hlen Heach]]].
  simpl in Hnodes. injection Hnodes as <-.
  destruct (Heach 0 _ eq_refl)
    as [node [Hnode [_ [_ [Hid [_ [Hversion [_ [Hposition [_ Hparameters]]]]]]]]]].
  simpl in Hnode. injection Hnode as <-.
  eexists [_]. eexists. split; [reflexivity|].
  split; [exact (Hid eq_refl)|].
  split; [exact Hversion|]. split; [exact Hposition|exact Hparameters].
Defined.

(** C4, as stated, fails: a caller's typeVersion of -1 is truthy and so
    is posted as it is, and so are a position of two strings and an id
    and parameters that are numbers. *)
Lemma C4_counterexample :
  sent (snd (createWorkflow
               (JObj [("name", JStr "w");
                      ("nodes",
                       JArr [JObj [("name", JStr "a"); ("type", JStr "t");
                                   ("id", int 5);
                                   ("typeVersion", int (-1));
                                   ("position", JArr [JStr "left"; JStr "top"]);
                                   ("parameters", int 3)]])])
               Sample.accepting))
  = [createRequest
       (JObj [("name", JStr "w");
              ("nodes",
               JArr [JObj [("name", JStr "a"); ("type", JStr "t");
                           ("id", int 5);
                           ("typeVersion", int (-1));
                           ("position", JArr [JStr "left"; JStr "top"]);
                           ("parameters", int 3);
                           ("disabled", JBool false);
                           ("notesInFlow", JBool false)]]);
              ("connections", JObj []);
              ("active", JBool false);
              ("settings", defaultSettings);
              ("staticData", JObj []);
              ("meta", JObj [("instanceId", JStr "00000000000000000000000000000000")]);
              ("pinData", JObj []);
              ("tags", JArr [])])].
Proof. reflexivity. Qed.

Local Opaque hex get.

Lemma createWorkflow_node_valid (index : nat) (node : Value) (w : World) :
  validNode node ->
  exists node' w', createWorkflow_node index node w = (Returned node', w').
Proof.
  intros [ps [-> [Hname Htype]]].
  cbv [createWorkflow_node bind prop assign generateNodeId randomBytes ret throw].
  repeat step; rewrite ?get_set_other in * by discriminate;
    rewrite ?negb_true_iff in *; try congruence; eauto.
Qed.

Local Transparent hex get.

Lemma mapFrom_total {A B : Type} (f : nat -> A -> M B) (P : A -> Prop) :
  (forall index x w, P x -> exists y w', f index x w = (Returned y, w')) ->
  forall l, Forall P l ->
  forall index w, exists l' w', mapFrom f index l w = (Returned l', w').
Proof.
  intros Hf l Hall. induction Hall as [|x rest Hx Hrest IH]; intros index w; simpl.
  - now exists [], w.
  - unfold bind. destruct (Hf index x w Hx) as [y [w1 ->]].
    destruct (IH (S index) w1) as [ys [w2 ->]].
    now exists (y :: ys), w2.
Qed.

Lemma createWorkflow_valid_posts (props : Props) (w : World) (items : list Value) :
  truthy (get (JObj props) "name") = true ->
  get (JObj props) "nodes" = JArr items ->
  Forall validNode items ->
  exists payload,
    sent (snd (createWorkflow (JObj props) w)) = sent w ++ [createRequest payload].
Proof.
  intros Hname Hnodes Hvalid.
  cbv [createWorkflow bind prop ret throw randomBytes].
  rewrite Hname, Hnodes. simpl. unfold mapIndexed.
  set (w0 := mkWorld (entropy w) (drawn w + 16) (remote w) (sent w)).
  pose proof (mapFrom_sameRemote createWorkflow_node createWorkflow_node_sameRemote
                items 0 w0) as [Hsame _].
  destruct (mapFrom_total createWorkflow_node validNode createWorkflow_node_valid
              items Hvalid 0 w0) as [processed [w1 Hmap]].
  rewrite Hmap in *. simpl in Hsame.
  match goal with
  | |- context [n8nApi (mkRequest POST _ _ ?p) w1] =>
      exists p; pose proof (n8nApi_sent (createRequest p) w1) as Hp;
      unfold createRequest in *;
      destruct (n8nApi (mkRequest POST "/workflows" JUndefined p) w1)
        as [[response|e'] w2]
  end; simpl in *; now rewrite Hp, Hsame.
Qed.

(** C5: for every input that passes the validation of create_workflow (a
    truthy name, an array of node objects with truthy name and type), a
    workflow is posted, and in it the i-th node (counting from 0) of a
    caller who gave that node no position has the position
    [250 + 250 i, 300]. *)
Theorem C5_default_position (props : Props) (w : World) (items : list Value)
    (i : nat) (node : Value) :
  truthy (get (JObj props) "name") = true ->
  get (JObj props) "nodes" = JArr items ->
  Forall validNode items ->
  nth_error items i = Some node ->
  get node "position" = JUndefined ->
  exists payload nodes node',
    sent (snd (createWorkflow (JObj props) w)) = sent w ++ [createRequest payload]
    /\ get payload "nodes" = JArr nodes
    /\ nth_error nodes i = Some node'
    /\ get node' "position" = JArr [int (250 + 250 * Z.of_nat i); int 300].
Proof.
  intros Hname Hnodes Hvalid Hnode Hposition.
  destruct (createWorkflow_valid_posts props w items Hname Hnodes Hvalid)
    as [payload Hsent].
  exists payload.
  destruct (createWorkflow_payload props w payload Hsent)
    as [processed [-> [_ [Hlen Hnth]]]].
  assert (Hitems : callerNodes (JObj props) = items).
  { unfold callerNodes. now rewrite Hnodes. }
  rewrite Hitems in *.
  assert (Hi : i < List.length processed).
  { rewrite Hlen. apply nth_error_Some. congruence. }
  destruct (nth_error processed i) as [node'|] eqn:Hnode';
    [|apply nth_error_None in Hnode'; lia].
  exists processed, node'. split; [exact Hsent|].
  split; [reflexivity|]. split; [exact Hnode'|].
  destruct (Hnth i node' Hnode') as [ps [wa [Hsame [_ [_ ->]]]]].
  rewrite Hnode in Hsame. injection Hsame as ->.
  rewrite normalized_position, Hposition. simpl.
  unfold defaultPosition. now rewrite Z.mul_comm.
Qed.

Lemma C5_default_position_witness :
  exists payload nodes node',
    sent (snd (createWorkflow
                 (JObj [("name", JStr "w");
                        ("nodes", JArr [JObj [("name", JStr "a"); ("type", JStr "t");
                                              ("position", JArr [int 0; int 0])];
                                        JObj [("name", JStr "b"); ("type", JStr "t")]])])
                 Sample.accepting))
    = [createRequest payload]
    /\ get payload "nodes" = JArr nodes
    /\ nth_error nodes 1 = Some node'
    /\ get node' "position" = JArr [int 500; int 300].
Proof.
  apply (C5_default_position
           [("name", JStr "w");
            ("nodes", JArr [JObj [("name", JStr "a"); ("type", JStr "t");
                                  ("position", JArr [int 0; int 0])];
                            JObj [("name", JStr "b"); ("type", JStr "t")]])]
           Sample.accepting
           [JObj [("name", JStr "a"); ("type", JStr "t");
                  ("position", JArr [int 0; int 0])];
            JObj [("name", JStr "b"); ("type", JStr "t")]]
           1 (JObj [("name", JStr "b"); ("type", JStr "t")])).
  - reflexivity.
  - reflexivity.
  - repeat constructor; eexists; repeat split.
  - reflexivity.
  - reflexivity.
Defined.

(** ** update_workflow *)

Lemma get_remove_other (k k' : string) (ps : Props) :
  k <> k' -> get (JObj (remove k' ps)) k = get (JObj ps) k.
Proof. intros Hne. simpl. now rewrite lookup_remove_other. Qed.

Lemma updateWorkflow_nodes_sameRemote (updateData : Props) (w : World) :
  sameRemote w (snd (updateWorkflow_nodes updateData w)).
Proof.
  unfold updateWorkflow_nodes.
  destruct (get (JObj updateData) "nodes") as [| |b|n|s|items|ps];
    try apply sameRemote_refl.
  unfold bind, mapIndexed.
  pose proof (mapFrom_sameRemote updateWorkflow_node updateWorkflow_node_sameRemote
                items 0 w) as H.
  now destruct (mapFrom updateWorkflow_node 0 items w) as [[processed|e] w1].
Qed.

Lemma updateWorkflow_nodes_fields (updateData updateData' : Props) (w w' : World) :
  updateWorkflow_nodes updateData w = (Returned updateData', w') ->
  forall k, k <> "nodes" -> get (JObj updateData') k = get (JObj updateData) k.
Proof.
  unfold updateWorkflow_nodes.
  destruct (get (JObj updateData) "nodes") as [| |b|n|s|items|ps];
    try (intros H; now injection H as <- <-).
  unfold bind, mapIndexed.
  destruct (mapFrom updateWorkflow_node 0 items w) as [[processed|e] w1];
    [|discriminate].
  intros H k Hk. injection H as <- <-. now apply get_set_other.
Qed.

Lemma updateWorkflow_merge_sameRemote (existing : Value) (updateData : Props)
    (w : World) :
  sameRemote w (snd (updateWorkflow_merge existing updateData w)).
Proof.
  cbv [updateWorkflow_merge bind prop ret throw randomBytes].
  destruct existing; repeat step; now repeat split.
Qed.

Lemma updateWorkflow_merge_returned (existing : Value) (updateData : Props)
    (w w' : World) (workflowData : Value) :
  updateWorkflow_merge existing updateData w = (Returned workflowData, w') ->
  workflowData = updatePayload existing updateData (nextId w).
Proof.
  cbv [updateWorkflow_merge bind prop ret throw randomBytes updatePayload nextId].
  intros H.
  destruct existing; repeat step_in H; try discriminate H.
  all: injection H as <- <-.
  all: unfold or; reuse_tests; reflexivity.
Qed.

Lemma updateWorkflow_cases (props : Props) (w : World) :
  sent (snd (updateWorkflow (JObj props) w)) = sent w ++ [fetchRequest (JObj props)]
  \/ exists existing w1 w2 updateData,
      n8nApi (fetchRequest (JObj props)) w = (Returned existing, w1)
      /\ sameFields props updateData
      /\ sent (snd (updateWorkflow (JObj props) w))
         = sent w ++ [fetchRequest (JObj props);
                      replaceRequest (JObj props)
                        (updatePayload (data existing) updateData (nextId w2))].
Proof.
  unfold updateWorkflow, bind, destructure, ret.
  change (n8nApi (mkRequest GET ("/workflows/" ++ toString (get (JObj props) "id"))%string
                    JUndefined JUndefined) w)
    with (n8nApi (fetchRequest (JObj props)) w).
  pose proof (n8nApi_sent (fetchRequest (JObj props)) w) as Hfetch.
  destruct (n8nApi (fetchRequest (JObj props)) w) as [[existing|e] w1] eqn:Hget;
    simpl in Hfetch; [|now left].
  pose proof (updateWorkflow_nodes_sameRemote (remove "id" (entries (JObj props))) w1)
    as [Hs1 _].
  destruct (updateWorkflow_nodes (remove "id" (entries (JObj props))) w1)
    as [[updateData|e] w2] eqn:Hnodes; simpl in Hs1;
    [|left; simpl; congruence].
  pose proof (updateWorkflow_merge_sameRemote (data existing) updateData w2) as [Hs2 _].
  destruct (updateWorkflow_merge (data existing) updateData w2)
    as [[workflowData|e] w3] eqn:Hmerge; simpl in Hs2;
    [|left; simpl; congruence].
  right. exists existing, w1, w2, updateData.
  split; [reflexivity|]. split.
  - intros k Hid Hn.
    rewrite (updateWorkflow_nodes_fields _ _ _ _ Hnodes k Hn).
    now apply get_remove_other.
  - apply updateWorkflow_merge_returned in Hmerge. subst workflowData.
    match goal with
    | |- context [n8nApi ?r w3] => pose proof (n8nApi_sent r w3) as Hput
    end.
    destruct (n8nApi _ w3) as [[response|e] w4]; simpl in *;
      rewrite Hput, Hs2, Hs1, Hfetch, <- app_assoc; reflexivity.
Qed.

Lemma get_mergeWorkflow (existing : Value) (updateData : Props)
    (settings staticData meta pinData tags : Value) :
  get (mergeWorkflow existing updateData settings staticData meta pinData tags) "settings"
  = settings
  /\ get (mergeWorkflow existing updateData settings staticData meta pinData tags)
       "staticData" = staticData
  /\ get (mergeWorkflow existing updateData settings staticData meta pinData tags) "meta"
     = meta
  /\ get (mergeWorkflow existing updateData settings staticData meta pinData tags)
       "pinData" = pinData
  /\ get (mergeWorkflow existing updateData settings staticData meta pinData tags) "tags"
     = tags.
Proof.
  unfold mergeWorkflow.
  repeat split;
    rewrite ?get_set_other by discriminate; apply get_set_same.
Qed.

(** C2, as amended.  In the workflow update_workflow puts, [settings] and
    [tags] are the caller's value when it is truthy, else the existing
    remote value when that is truthy, else the default of creation;
    [staticData], [meta] and [pinData] are the existing remote value when
    it is truthy, else the default of creation (for [meta] a freshly
    drawn instance identifier of 32 lower-case hexadecimal digits),
    whatever the caller supplied.  So with
    existing settings S1 and none from the caller the settings put are
    S1, and with truthy settings S2 from the caller they are S2. *)
Theorem C2_updateWorkflow_precedence (props : Props) (w : World) (fetch put : Request) :
  sent (snd (updateWorkflow (JObj props) w)) = sent w ++ [fetch; put] ->
  exists existing w1,
    n8nApi (fetchRequest (JObj props)) w = (Returned existing, w1)
    /\ fetch = fetchRequest (JObj props)
    /\ method put = PUT
    /\ url put = workflowUrl (JObj props)
    /\ get (body put) "settings"
       = or (get (JObj props) "settings")
            (or (get (data existing) "settings") defaultSettings)
    /\ get (body put) "tags"
       = or (get (JObj props) "tags") (or (get (data existing) "tags") (JArr []))
    /\ get (body put) "staticData" = or (get (data existing) "staticData") (JObj [])
    /\ get (body put) "pinData" = or (get (data existing) "pinData") (JObj [])
    /\ (truthy (get (data existing) "meta") = true ->
        get (body put) "meta" = get (data existing) "meta")
    /\ (truthy (get (data existing) "meta") = false ->
        exists instanceId,
          get (body put) "meta" = JObj [("instanceId", JStr instanceId)]
          /\ String.length instanceId = 32
          /\ allChars isHexDigit instanceId = true).
Proof.
  intros Hsent.
  destruct (updateWorkflow_cases props w)
    as [Hone | [existing [w1 [w2 [updateData [Hget [Hsame Htwo]]]]]]].
  - rewrite Hone in Hsent. apply app_inv_head in Hsent. discriminate.
  - rewrite Htwo in Hsent. apply app_inv_head in Hsent.
    injection Hsent as <- <-.
    exists existing, w1. split; [exact Hget|].
    repeat split.
    all: unfold replaceRequest, updatePayload; cbn [body].
    all: try (intros Hmeta).
    all: pose proof (get_mergeWorkflow (data existing) updateData) as Hm.
    + rewrite (proj1 (Hm _ _ _ _ _)). now rewrite Hsame by discriminate.
    + rewrite (proj2 (proj2 (proj2 (proj2 (Hm _ _ _ _ _))))).
      now rewrite Hsame by discriminate.
    + now rewrite (proj1 (proj2 (Hm _ _ _ _ _))).
    + now rewrite (proj1 (proj2 (proj2 (proj2 (Hm _ _ _ _ _))))).
    + rewrite (proj1 (proj2 (proj2 (Hm _ _ _ _ _)))). now rewrite Hmeta.
    + rewrite (proj1 (proj2 (proj2 (Hm _ _ _ _ _)))). rewrite Hmeta.
      exists (nextId w2).
      split; [reflexivity|]. split; [apply nextId_length|apply nextId_hex].
Qed.


Lemma C2_updateWorkflow_precedence_witness :
  exists existing w1,
    n8nApi (fetchRequest (JObj [("id", JStr "7"); ("name", JStr "new")])) Sample.serving
    = (Returned existing, w1)
    /\ get (body (replaceRequest (JObj [("id", JStr "7"); ("name", JStr "new")])
                    (updatePayload Sample.stored [("name", JStr "new")]
                       "00000000000000000000000000000000")))
         "settings"
       = get Sample.stored "settings"
    /\ exists instanceId,
        get (body (replaceRequest (JObj [("id", JStr "7"); ("name", JStr "new")])
                     (updatePayload Sample.stored [("name", JStr "new")]
                        "00000000000000000000000000000000")))
          "meta"
        = JObj [("instanceId", JStr instanceId)]
        /\ String.length instanceId = 32
        /\ allChars isHexDigit instanceId = true.
Proof.
  destruct (C2_updateWorkflow_precedence
              [("id", JStr "7"); ("name", JStr "new")] Sample.serving
              (fetchRequest (JObj [("id", JStr "7"); ("name", JStr "new")]))
              (replaceRequest (JObj [("id", JStr "7"); ("name", JStr "new")])
                 (updatePayload Sample.stored [("name", JStr "new")]
                    "00000000000000000000000000000000"))
              eq_refl)
    as [existing [w1 [Hget [_ [_ [_ [Hsettings [_ [_ [_ [_ Hmeta]]]]]]]]]]].
  assert (Hdata : data existing = Sample.stored).
  { now injection Hget as <- _. }
  exists existing, w1. split; [exact Hget|]. split.
  - rewrite Hsettings, Hdata. reflexivity.
  - apply Hmeta. rewrite Hdata. reflexivity.
Defined.

(** C2, as stated, fails: the caller supplies [staticData], [meta] and
    [pinData]; the workflow that is put carries the stored [staticData]
    and [pinData] and, the stored workflow having no [meta], a generated
    one. *)
Lemma C2_counterexample :
  sent (snd (updateWorkflow
               (JObj [("id", JStr "7");
                      ("staticData", JObj [("fresh", int 1)]);
                      ("meta", JObj [("instanceId", JStr "mine")]);
                      ("pinData", JObj [])])
               Sample.serving))
  = [mkRequest GET "/workflows/7" JUndefined JUndefined;
     mkRequest PUT "/workflows/7" JUndefined
       (JObj [("id", JStr "7"); ("name", JStr "old"); ("active", JBool false);
              ("settings", JObj [("executionOrder", JStr "v0")]);
              ("staticData", JObj [("seen", int 2)]);
              ("pinData", JObj [("n", JArr [])]);
              ("meta", JObj [("instanceId", JStr "00000000000000000000000000000000")]);
              ("tags", JArr [])])].
Proof. reflexivity. Qed.

(** ** update_workflow against create_workflow on nodes *)

Local Opaque hex get.

(** On a node object that passes the validation of creation, the two
    callbacks do the same unless its position is an array whose length
    is not 2. *)
Lemma node_callbacks_agree (index : nat) (ps : Props) (w : World) :
  truthy (get (JObj ps) "name") = true ->
  truthy (get (JObj ps) "type") = true ->
  malformedPosition (get (JObj ps) "position") = notAnArray (get (JObj ps) "position") ->
  updateWorkflow_node index (JObj ps) w = createWorkflow_node index (JObj ps) w.
Proof.
  intros Hname Htype Hposition.
  unfold malformedPosition, notAnArray in Hposition.
  cbv [updateWorkflow_node createWorkflow_node bind prop assign generateNodeId
         randomBytes ret throw].
  repeat step; rewrite ?get_set_other in * by discriminate;
    rewrite ?negb_true_iff in *; try reflexivity; congruence.
Qed.

Local Transparent hex get.

(** C3: the two normalizations differ.  A node whose position is an array
    of three numbers keeps it under update_workflow, while create_workflow
    replaces it by the default position; the workflow update_workflow
    puts carries the position of three numbers. *)
Theorem C3_update_keeps_malformed_position :
  fst (mapIndexed updateWorkflow_node
         [JObj [("name", JStr "a"); ("type", JStr "t");
                ("position", JArr [int 1; int 2; int 3])]]
         Sample.accepting)
  = Returned [JObj [("name", JStr "a"); ("type", JStr "t");
                    ("position", JArr [int 1; int 2; int 3]);
                    ("id", JStr "00000000000000000000000000000000");
                    ("typeVersion", int 1);
                    ("parameters", JObj []);
                    ("disabled", JBool false);
                    ("notesInFlow", JBool false)]]
  /\ fst (mapIndexed createWorkflow_node
            [JObj [("name", JStr "a"); ("type", JStr "t");
                   ("position", JArr [int 1; int 2; int 3])]]
            Sample.accepting)
     = Returned [JObj [("name", JStr "a"); ("type", JStr "t");
                       ("position", JArr [int 250; int 300]);
                       ("id", JStr "00000000000000000000000000000000");
                       ("typeVersion", int 1);
                       ("parameters", JObj []);
                       ("disabled", JBool false);
                       ("notesInFlow", JBool false)]]
  /\ List.map (fun r => (method r, get (body r) "nodes"))
       (sent (snd (updateWorkflow
                     (JObj [("id", JStr "7");
                            ("nodes",
                             JArr [JObj [("name", JStr "a"); ("type", JStr "t");
                                         ("position", JArr [int 1; int 2; int 3])]])])
                     Sample.serving)))
     = [(GET, JUndefined);
        (PUT, JArr [JObj [("name", JStr "a"); ("type", JStr "t");
                          ("position", JArr [int 1; int 2; int 3]);
                          ("id", JStr "00000000000000000000000000000000");
                          ("typeVersion", int 1);
                          ("parameters", JObj []);
                          ("disabled", JBool false);
                          ("notesInFlow", JBool false)]])].
Proof. repeat split. Qed.

(** ** create_workflow: connections *)

Lemma lookup_filter_absent (f : string * Value -> bool) (k : string) (ps : Props) :
  ~ In k (List.map fst ps) -> lookup k (filter f ps) = None.
Proof.
  induction ps as [|[k' v'] rest IH]; simpl; [reflexivity|].
  intros Hnot.
  assert (Hne : String.eqb k k' = false).
  { apply String.eqb_neq. intros ->. apply Hnot. now left. }
  destruct (f (k', v')); simpl; rewrite ?Hne; apply IH; tauto.
Qed.

Lemma processConnections_fold (k : string) (ps : Props) :
  NoDup (List.map fst ps) ->
  forall processed,
    lookup k
      (fold_left
         (fun processed kv =>
            if isObjectLike (snd kv)
            then assignComputed (fst kv) (snd kv) processed
            else processed)
         ps processed)
    = match lookup k (filter copied ps) with
      | Some v => Some v
      | None => lookup k processed
      end.
Proof.
  induction ps as [|[k0 v0] rest IH]; intros Hnodup processed; simpl;
    [reflexivity|].
  inversion Hnodup as [|? ? Hfresh Hrest]; subst.
  rewrite (IH Hrest). unfold copied at 2, assignComputed. simpl.
  destruct (isObjectLike v0); simpl; [|reflexivity].
  destruct (String.eqb k0 "__proto__"); simpl; [reflexivity|].
  destruct (String.eqb k k0) eqn:Hk.
  - apply String.eqb_eq in Hk. subst k0.
    rewrite (lookup_filter_absent copied k rest Hfresh).
    apply lookup_set_same.
  - destruct (lookup k (filter copied rest)); [reflexivity|].
    apply lookup_set_other. now apply String.eqb_neq.
Qed.

(** What survives of a connections object: its entries with an object
    value, the key [__proto__] excepted. *)
Lemma processConnections_lookup (ps : Props) (k : string) :
  NoDup (List.map fst ps) ->
  lookup k (processConnections (JObj ps)) = lookup k (filter copied ps).
Proof.
  intros Hnodup. unfold processConnections. simpl.
  rewrite (processConnections_fold k ps Hnodup []).
  now destruct (lookup k (filter copied ps)).
Qed.

Lemma processConnections_primitive (connections : Value) :
  isObjectLike connections = false -> processConnections connections = [].
Proof.
  unfold processConnections. intros ->. now rewrite andb_false_r.
Qed.

(** The round trip of the specification: of [{A: {...}, B: "oops",
    C: null}] only [A] is posted. *)
Example processConnections_round_trip :
  processConnections
    (JObj [("A", JObj [("main", JArr [])]); ("B", JStr "oops"); ("C", JNull)])
  = [("A", JObj [("main", JArr [])])].
Proof. reflexivity. Qed.

(** C6: a key of the connections argument with an object value that is
    not posted.  The argument has the keys [__proto__] and [A], both
    with an object value; the connections of the posted workflow have
    [A] alone. *)
Theorem C6_proto_key_dropped :
  isObjectLike
    (get (JObj [("__proto__", JObj [("main", JArr [])]);
                ("A", JObj [("main", JArr [])])]) "__proto__") = true
  /\ sent (snd (createWorkflow
                  (JObj [("name", JStr "w");
                         ("nodes", JArr []);
                         ("connections",
                          JObj [("__proto__", JObj [("main", JArr [])]);
                                ("A", JObj [("main", JArr [])])])])
                  Sample.accepting))
     = [createRequest
          (JObj [("name", JStr "w");
                 ("nodes", JArr []);
                 ("connections", JObj [("A", JObj [("main", JArr [])])]);
                 ("active", JBool false);
                 ("settings", defaultSettings);
                 ("staticData", JObj []);
                 ("meta", JObj [("instanceId", JStr "00000000000000000000000000000000")]);
                 ("pinData", JObj []);
                 ("tags", JArr [])])].
Proof. split; reflexivity. Qed.

(** ** Error messages *)

Lemma formatError_string_body (message text : string) (code : Z) (c : ascii)
    (rest : string) :
  formatError (AxiosError message (Some (mkResponse code text (JStr (String c rest)))))
  = (httpLine code text ++ " - " ++ String c rest)%string.
Proof. reflexivity. Qed.

Lemma formatError_message_field (message text : string) (code : Z) (ps : Props) :
  truthy (get (JObj ps) "message") = true ->
  formatError (AxiosError message (Some (mkResponse code text (JObj ps))))
  = (httpLine code text ++ " - "
       ++ toString (get (JObj ps) "message"))%string.
Proof. intros H. unfold formatError. cbn [truthy data]. now rewrite H. Qed.

Lemma formatError_error_field (message text : string) (code : Z) (ps : Props) :
  truthy (get (JObj ps) "message") = false ->
  truthy (get (JObj ps) "error") = true ->
  formatError (AxiosError message (Some (mkResponse code text (JObj ps))))
  = (httpLine code text ++ " - "
       ++ toString (get (JObj ps) "error"))%string.
Proof. intros H1 H2. unfold formatError. cbn [truthy data]. now rewrite H1, H2. Qed.

Lemma formatError_other_body (message text : string) (code : Z) (ps : Props) :
  truthy (get (JObj ps) "message") = false ->
  truthy (get (JObj ps) "error") = false ->
  formatError (AxiosError message (Some (mkResponse code text (JObj ps))))
  = (httpLine code text ++ " - " ++ stringify (JObj ps))%string.
Proof. intros H1 H2. unfold formatError. cbn [truthy data]. now rewrite H1, H2. Qed.

Lemma formatError_falsy_body (message text : string) (code : Z) (v : Value) :
  truthy v = false ->
  formatError (AxiosError message (Some (mkResponse code text v)))
  = httpLine code text.
Proof. intros H. unfold formatError. cbn [data]. now rewrite H. Qed.

Lemma formatError_generic (message : string) :
  formatError (Error message) = message /\ formatError (TypeError message) = message.
Proof. split; reflexivity. Qed.

(** C9: a failure without a response -- a timeout is one -- is an axios
    error, so it takes the HTTP branch of [formatError]: whatever its
    message, the text is "HTTP undefined undefined", and that is what the
    caller of a tool reads after "Error: ". *)
Theorem C9_no_response_message (message : string) :
  formatError (AxiosError message None) = "HTTP undefined undefined"
  /\ fst (callTool "get_workflow" (JObj [("id", JStr "7")])
            (Sample.replies (fun _ => NoResponse message)))
     = Some "Error: HTTP undefined undefined".
Proof. split; reflexivity. Qed.

(** ** Sample conversions *)

Example stringify_sample :
  stringify (JObj [("a", int 1); ("b", JArr [JStr "x"; JNull]); ("c", JUndefined)])
  = ("{" ++ dquote ++ "a" ++ dquote ++ ":1," ++ dquote ++ "b" ++ dquote
       ++ ":[" ++ dquote ++ "x" ++ dquote ++ ",null]}")%string.
Proof. reflexivity. Qed.

Example stringifyPretty_sample :
  stringifyPretty (JObj [("a", JArr []); ("b", JObj [("c", JBool true)])])
  = ("{" ++ newline ++ "  " ++ dquote ++ "a" ++ dquote ++ ": []," ++ newline
       ++ "  " ++ dquote ++ "b" ++ dquote ++ ": {" ++ newline
       ++ "    " ++ dquote ++ "c" ++ dquote ++ ": true" ++ newline
       ++ "  }" ++ newline ++ "}")%string.
Proof. reflexivity. Qed.

Example toString_sample :
  toString (JArr [int (-12); JNull; JStr "x"; JArr [int 0; int 7]]) = "-12,,x,0,7".
Proof. reflexivity. Qed.

Example unknown_tool :
  callTool "nope" (JObj []) Sample.accepting
  = (Some "Error: Unknown tool: nope", Sample.accepting).
Proof. reflexivity. Qed.

(** * Further properties of the handlers *)

Lemma validNode_sample (name type : string) (c d : ascii) (rest : Props) :
  validNode (JObj (("name", JStr (String c name)) :: ("type", JStr (String d type)) :: rest)).
Proof. eexists. repeat split. Defined.

Ltac distinct_keys :=
  repeat constructor; simpl; intuition discriminate.

(** X1: list_workflows sends one GET of [/workflows].  Without an
    [active] argument the params handed to axios are empty; with any
    supplied value, [false] and [null] included, they carry [active]
    with that value. *)
Theorem X1_listWorkflows_filter (props : Props) (w : World) :
  (lookup "active" props = None ->
   sent (snd (listWorkflows (JObj props) w)) = sent w ++ [listRequest []])
  /\ (forall v, lookup "active" props = Some v -> v <> JUndefined ->
      sent (snd (listWorkflows (JObj props) w))
      = sent w ++ [listRequest [("active", v)]]).
Proof.
  split.
  - intros H. unfold listWorkflows, bind, prop, ret. simpl. rewrite H.
    pose proof (n8nApi_sent (listRequest []) w) as Hs. unfold listRequest in *.
    now destruct (n8nApi _ w) as [[r|e] w1].
  - intros v H Hv. unfold listWorkflows, bind, prop, ret. simpl. rewrite H.
    pose proof (n8nApi_sent (listRequest [("active", v)]) w) as Hs.
    unfold listRequest in *.
    destruct v; try congruence; now destruct (n8nApi _ w) as [[r|e] w1].
Qed.

Lemma X1_listWorkflows_filter_witness :
  sent (snd (listWorkflows (JObj []) Sample.accepting)) = [listRequest []]
  /\ sent (snd (listWorkflows (JObj [("active", JBool false)]) Sample.accepting))
     = [listRequest [("active", JBool false)]].
Proof.
  split.
  - apply (proj1 (X1_listWorkflows_filter [] Sample.accepting)). reflexivity.
  - apply (proj2 (X1_listWorkflows_filter [("active", JBool false)] Sample.accepting)
             (JBool false)); [reflexivity|discriminate].
Defined.


(** X2: a tool name that is not one of the eight is answered "Error:
    Unknown tool: <name>", whatever the arguments, and the world is left
    as it was: nothing is sent, no random byte is drawn. *)
Theorem X2_unknown_tool (name : string) (args : Value) (w : World) :
  ~ In name toolNames ->
  callTool name args w = (Some ("Error: Unknown tool: " ++ name)%string, w).
Proof.
  intros Hnot. unfold callTool.
  repeat match goal with
         | |- context [String.eqb name ?s] =>
             destruct (String.eqb_spec name s) as [->|_];
             [exfalso; apply Hnot; simpl; tauto|]
         end.
  reflexivity.
Qed.

Lemma X2_unknown_tool_witness :
  callTool "list_workflow" (JObj []) Sample.accepting
  = (Some "Error: Unknown tool: list_workflow", Sample.accepting).
Proof.
  apply (X2_unknown_tool "list_workflow" (JObj []) Sample.accepting).
  simpl. intros H.
  repeat (destruct H as [H|H]; [discriminate H|]). exact H.
Defined.


(** X3: a call without arguments (they are [undefined]) never reaches the
    remote system, whatever the tool name: the world is unchanged and the
    answer is an "Error: ..." text. *)
Theorem X3_missing_arguments (name : string) (w : World) :
  snd (callTool name JUndefined w) = w
  /\ exists message,
      fst (callTool name JUndefined w) = Some ("Error: " ++ message)%string.
Proof.
  unfold callTool.
  repeat match goal with
         | |- context [String.eqb name ?s] => destruct (String.eqb name s)
         end;
    (split; [reflexivity|eexists; reflexivity]).
Qed.


(** X4: a missing [id] is not rejected.  get_workflow, delete_workflow
    and the first request of update_workflow go to [/workflows/undefined]. *)
Theorem X4_missing_id (props : Props) (w : World) :
  lookup "id" props = None ->
  sent (snd (getWorkflow (JObj props) w))
  = sent w ++ [mkRequest GET "/workflows/undefined" JUndefined JUndefined]
  /\ sent (snd (deleteWorkflow (JObj props) w))
     = sent w ++ [mkRequest DELETE "/workflows/undefined" JUndefined JUndefined]
  /\ exists rest,
      sent (snd (updateWorkflow (JObj props) w))
      = sent w ++ mkRequest GET "/workflows/undefined" JUndefined JUndefined :: rest.
Proof.
  intros Hid.
  assert (Hget : get (JObj props) "id" = JUndefined) by (simpl; now rewrite Hid).
  split; [|split].
  - unfold getWorkflow, bind, prop, ret. rewrite Hget.
    match goal with |- context [n8nApi ?r w] => pose proof (n8nApi_sent r w) as Hs end.
    now destruct (n8nApi _ w) as [[r|e] w1].
  - unfold deleteWorkflow, bind, prop, ret. rewrite Hget.
    match goal with |- context [n8nApi ?r w] => pose proof (n8nApi_sent r w) as Hs end.
    now destruct (n8nApi _ w) as [[r|e] w1].
  - destruct (updateWorkflow_cases props w)
      as [H | [existing [w1 [w2 [updateData [_ [_ H]]]]]]];
      rewrite H; unfold fetchRequest, workflowUrl; rewrite Hget; eexists; reflexivity.
Qed.

Lemma X4_missing_id_witness :
  sent (snd (deleteWorkflow (JObj []) Sample.accepting))
  = [mkRequest DELETE "/workflows/undefined" JUndefined JUndefined].
Proof.
  apply (proj1 (proj2 (X4_missing_id [] Sample.accepting eq_refl))).
Defined.


Lemma deleteWorkflow_cases (props : Props) (w : World) :
  sent (snd (deleteWorkflow (JObj props) w)) = sent w ++ [removeRequest (JObj props)]
  /\ (forall response w1,
         n8nApi (removeRequest (JObj props)) w = (Returned response, w1) ->
         deleteWorkflow (JObj props) w
         = (Returned ("Workflow " ++ toString (get (JObj props) "id")
                        ++ " deleted successfully!")%string, w1))
  /\ (forall error w1,
         n8nApi (removeRequest (JObj props)) w = (Threw error, w1) ->
         deleteWorkflow (JObj props) w = (Threw error, w1)).
Proof.
  unfold deleteWorkflow, bind, prop, ret.
  change (n8nApi (mkRequest DELETE ("/workflows/" ++ toString (get (JObj props) "id"))%string
            JUndefined JUndefined) w) with (n8nApi (removeRequest (JObj props)) w).
  pose proof (n8nApi_sent (removeRequest (JObj props)) w) as Hs.
  destruct (n8nApi (removeRequest (JObj props)) w) as [[r|e] w1]; simpl in *.
  - split; [exact Hs|]. split; intros ? ? H; now inversion H.
  - split; [exact Hs|]. split; intros ? ? H; now inversion H.
Qed.

(** X5: delete_workflow sends exactly one DELETE of the workflow.  When
    it succeeds the answer is "Workflow <id> deleted successfully!",
    whatever the response body; when it fails its error is thrown. *)
Theorem X5_deleteWorkflow (props : Props) (w : World) :
  sent (snd (deleteWorkflow (JObj props) w)) = sent w ++ [removeRequest (JObj props)]
  /\ (forall response w1,
         n8nApi (removeRequest (JObj props)) w = (Returned response, w1) ->
         deleteWorkflow (JObj props) w
         = (Returned ("Workflow " ++ toString (get (JObj props) "id")
                        ++ " deleted successfully!")%string, w1))
  /\ (forall error w1,
         n8nApi (removeRequest (JObj props)) w = (Threw error, w1) ->
         deleteWorkflow (JObj props) w = (Threw error, w1)).
Proof. exact (deleteWorkflow_cases props w). Qed.

Lemma X5_deleteWorkflow_witness :
  deleteWorkflow (JObj [("id", int 12)]) Sample.accepting
  = (Returned "Workflow 12 deleted successfully!",
     sending (removeRequest (JObj [("id", int 12)])) Sample.accepting)
  /\ fst (deleteWorkflow (JObj [("id", int 12)]) Sample.timingOut)
     = Threw (AxiosError "timeout of 30000ms exceeded" None).
Proof.
  split.
  - apply (proj1 (proj2 (X5_deleteWorkflow [("id", int 12)] Sample.accepting))
             (mkResponse 200 "OK" (JObj [("id", JStr "7")]))).
    reflexivity.
  - apply (f_equal fst
             (proj2 (proj2 (X5_deleteWorkflow [("id", int 12)] Sample.timingOut))
                _ (sending (removeRequest (JObj [("id", int 12)])) Sample.timingOut)
                eq_refl)).
Defined.


Local Opaque hex get.

Lemma createWorkflow_node_missing_name (index : nat) (ps : Props) (w : World) :
  truthy (get (JObj ps) "name") = false ->
  exists w',
    createWorkflow_node index (JObj ps) w = (Threw (missingField index "name"), w').
Proof.
  intros Hname.
  cbv [createWorkflow_node bind prop assign generateNodeId randomBytes ret throw].
  step; rewrite ?get_set_other by discriminate; rewrite Hname; cbv beta iota;
    simpl negb; cbv iota; eexists; reflexivity.
Qed.

Lemma createWorkflow_node_missing_type (index : nat) (ps : Props) (w : World) :
  truthy (get (JObj ps) "name") = true ->
  truthy (get (JObj ps) "type") = false ->
  exists w',
    createWorkflow_node index (JObj ps) w = (Threw (missingField index "type"), w').
Proof.
  intros Hname Htype.
  cbv [createWorkflow_node bind prop assign generateNodeId randomBytes ret throw].
  step; rewrite ?get_set_other by discriminate; rewrite Hname, Htype;
    cbv beta iota; simpl negb; cbv iota; eexists; reflexivity.
Qed.

Local Transparent hex get.

Lemma mapFrom_throws {A B : Type} (f : nat -> A -> M B) (P : A -> Prop)
    (x : A) (e : Thrown) (after : list A) :
  (forall index y w, P y -> exists y' w', f index y w = (Returned y', w')) ->
  forall before index,
    Forall P before ->
    (forall w, exists w', f (index + List.length before) x w = (Threw e, w')) ->
    forall w, exists w', mapFrom f index (before ++ x :: after) w = (Threw e, w').
Proof.
  intros Hf before. induction before as [|y rest IH]; intros index Hall Hx w; simpl.
  - unfold bind. simpl in Hx. rewrite Nat.add_0_r in Hx.
    destruct (Hx w) as [w' ->]. now exists w'.
  - inversion Hall as [|? ? Hy Hrest]; subst.
    unfold bind. destruct (Hf index y w Hy) as [y' [w1 ->]].
    destruct (IH (S index) Hrest) with (w := w1) as [w' Hm].
    + intros w0. simpl in Hx. rewrite <- plus_n_Sm in Hx. apply Hx.
    + rewrite Hm. now exists w'.
Qed.

Lemma createWorkflow_node_throws (props : Props) (w : World)
    (before after : list Value) (node : Value) (e : Thrown) :
  truthy (get (JObj props) "name") = true ->
  get (JObj props) "nodes" = JArr (before ++ node :: after) ->
  Forall validNode before ->
  (forall w0, exists w', createWorkflow_node (List.length before) node w0 = (Threw e, w')) ->
  fst (createWorkflow (JObj props) w) = Threw e
  /\ sent (snd (createWorkflow (JObj props) w)) = sent w.
Proof.
  intros Hname Hnodes Hvalid Hnode.
  cbv [createWorkflow bind prop ret throw randomBytes].
  rewrite Hname, Hnodes. simpl. unfold mapIndexed.
  set (w0 := mkWorld (entropy w) (drawn w + 16) (remote w) (sent w)).
  pose proof (mapFrom_sameRemote createWorkflow_node createWorkflow_node_sameRemote
                (before ++ node :: after) 0 w0) as [Hsame _].
  destruct (mapFrom_throws createWorkflow_node validNode node e after
              createWorkflow_node_valid before 0 Hvalid Hnode w0) as [w' Hm].
  rewrite Hm in *. simpl in *. now split.
Qed.

(** X6: create_workflow on nodes of which the first ones are valid and the
    next is an object without a truthy [name] throws "Node at index <i> is
    missing required 'name' field", [i] being the position of that node;
    with a name but no truthy [type] the field named is 'type'.  Nothing
    is sent in either case. *)
Theorem X6_create_rejects_incomplete_node (props ps : Props) (w : World)
    (before after : list Value) :
  truthy (get (JObj props) "name") = true ->
  get (JObj props) "nodes" = JArr (before ++ JObj ps :: after) ->
  Forall validNode before ->
  (truthy (get (JObj ps) "name") = false ->
   fst (createWorkflow (JObj props) w)
   = Threw (missingField (List.length before) "name")
   /\ sent (snd (createWorkflow (JObj props) w)) = sent w)
  /\ (truthy (get (JObj ps) "name") = true ->
      truthy (get (JObj ps) "type") = false ->
      fst (createWorkflow (JObj props) w)
      = Threw (missingField (List.length before) "type")
      /\ sent (snd (createWorkflow (JObj props) w)) = sent w).
Proof.
  intros Hname Hnodes Hvalid. split.
  - intros Hn. apply (createWorkflow_node_throws props w before after (JObj ps));
      auto. intros w0. now apply createWorkflow_node_missing_name.
  - intros Hn Ht. apply (createWorkflow_node_throws props w before after (JObj ps));
      auto. intros w0. now apply createWorkflow_node_missing_type.
Qed.

Lemma X6_create_rejects_incomplete_node_witness :
  (fst (createWorkflow
          (JObj [("name", JStr "w");
                 ("nodes", JArr [JObj [("name", JStr "a"); ("type", JStr "t")];
                                 JObj [("type", JStr "t")]])])
          Sample.accepting)
   = Threw (Error "Node at index 1 is missing required 'name' field")
   /\ sent (snd (createWorkflow
                  (JObj [("name", JStr "w");
                         ("nodes", JArr [JObj [("name", JStr "a"); ("type", JStr "t")];
                                         JObj [("type", JStr "t")]])])
                  Sample.accepting)) = [])
  /\ (fst (createWorkflow
             (JObj [("name", JStr "w");
                    ("nodes", JArr [JObj [("name", JStr "a")]])])
             Sample.accepting)
      = Threw (Error "Node at index 0 is missing required 'type' field")
      /\ sent (snd (createWorkflow
                     (JObj [("name", JStr "w");
                            ("nodes", JArr [JObj [("name", JStr "a")]])])
                     Sample.accepting)) = []).
Proof.
  split.
  - apply (proj1 (X6_create_rejects_incomplete_node
                    [("name", JStr "w");
                     ("nodes", JArr [JObj [("name", JStr "a"); ("type", JStr "t")];
                                     JObj [("type", JStr "t")]])]
                    [("type", JStr "t")] Sample.accepting
                    [JObj [("name", JStr "a"); ("type", JStr "t")]] []
                    eq_refl eq_refl
                    (Forall_cons _ (validNode_sample EmptyString EmptyString "a" "t" [])
                       (Forall_nil _)))).
    reflexivity.
  - apply (proj2 (X6_create_rejects_incomplete_node
                    [("name", JStr "w"); ("nodes", JArr [JObj [("name", JStr "a")]])]
                    [("name", JStr "a")] Sample.accepting [] []
                    eq_refl eq_refl (Forall_nil _))); reflexivity.
Defined.


(** X7: create_workflow with a truthy [nodes] that is not an array (a
    string, a number, an object) throws "Nodes must be an array" and sends
    nothing. *)
Theorem X7_create_nodes_not_array (props : Props) (w : World) :
  truthy (get (JObj props) "name") = true ->
  truthy (get (JObj props) "nodes") = true ->
  isArray (get (JObj props) "nodes") = false ->
  fst (createWorkflow (JObj props) w) = Threw (Error "Nodes must be an array")
  /\ sent (snd (createWorkflow (JObj props) w)) = sent w.
Proof.
  intros Hname Htruthy Harray.
  cbv [createWorkflow bind prop ret throw randomBytes].
  rewrite Hname, (or_truthy _ (JArr []) Htruthy), Htruthy.
  destruct (get (JObj props) "nodes"); try discriminate; now split.
Qed.

Lemma X7_create_nodes_not_array_witness :
  fst (createWorkflow (JObj [("name", JStr "w"); ("nodes", JStr "a, b")])
         Sample.accepting)
  = Threw (Error "Nodes must be an array")
  /\ sent (snd (createWorkflow (JObj [("name", JStr "w"); ("nodes", JStr "a, b")])
                 Sample.accepting)) = [].
Proof.
  apply (X7_create_nodes_not_array
           [("name", JStr "w"); ("nodes", JStr "a, b")] Sample.accepting);
    reflexivity.
Defined.


(** X8: create_workflow posts only validated input: whenever a workflow
    is posted, the [name] argument is truthy and every node of the caller
    is an object with a truthy [name] and a truthy [type]. *)
Theorem X8_create_posts_only_valid (props : Props) (w : World) (payload : Value) :
  sent (snd (createWorkflow (JObj props) w)) = sent w ++ [createRequest payload] ->
  truthy (get (JObj props) "name") = true
  /\ Forall validNode (callerNodes (JObj props)).
Proof.
  intros Hsent.
  destruct (createWorkflow_payload props w payload Hsent)
    as [processed [_ [Hname [Hlen Hnth]]]].
  split; [exact Hname|].
  apply Forall_forall. intros node Hin.
  apply In_nth_error in Hin. destruct Hin as [i Hi].
  assert (Hlt : i < List.length processed).
  { rewrite Hlen. apply nth_error_Some. congruence. }
  destruct (nth_error processed i) as [node'|] eqn:Hp;
    [|apply nth_error_None in Hp; lia].
  destruct (Hnth i node' Hp) as [ps [wa [Hsame [Hn [Ht _]]]]].
  rewrite Hi in Hsame. injection Hsame as ->.
  now exists ps.
Qed.

Lemma X8_create_posts_only_valid_witness :
  truthy (JStr "w") = true
  /\ Forall validNode [JObj [("name", JStr "a"); ("type", JStr "t")]].
Proof.
  exact (X8_create_posts_only_valid
           [("name", JStr "w");
            ("nodes", JArr [JObj [("name", JStr "a"); ("type", JStr "t")]])]
           Sample.accepting
           (createPayload
              (JObj [("name", JStr "w");
                     ("nodes", JArr [JObj [("name", JStr "a"); ("type", JStr "t")]])])
              "00000000000000000000000000000000"
              [JObj [("name", JStr "a"); ("type", JStr "t");
                     ("id", JStr "00000000000000000000000000000000");
                     ("typeVersion", int 1);
                     ("position", JArr [int 250; int 300]);
                     ("parameters", JObj []);
                     ("disabled", JBool false);
                     ("notesInFlow", JBool false)]])
           eq_refl).
Defined.


(** X9: the workflow create_workflow posts has exactly nine properties.
    [name] is the caller's, [active] and [settings] are the caller's or
    their defaults, and [staticData], [pinData], [tags] and [meta] are
    fixed -- empty object, empty object, empty array, a fresh instance
    identifier of 32 lower-case hexadecimal digits -- whatever the caller supplied under those
    names; any other argument is not posted. *)
Theorem X9_create_fixed_fields (props : Props) (w : World) (payload : Value) :
  sent (snd (createWorkflow (JObj props) w)) = sent w ++ [createRequest payload] ->
  List.map fst (entries payload) = payloadKeys
  /\ get payload "name" = get (JObj props) "name"
  /\ get payload "active" = or (get (JObj props) "active") (JBool false)
  /\ get payload "settings" = or (get (JObj props) "settings") defaultSettings
  /\ get payload "staticData" = JObj []
  /\ get payload "pinData" = JObj []
  /\ get payload "tags" = JArr []
  /\ exists instanceId,
      get payload "meta" = JObj [("instanceId", JStr instanceId)]
      /\ String.length instanceId = 32
      /\ allChars isHexDigit instanceId = true.
Proof.
  intros Hsent.
  destruct (createWorkflow_payload props w payload Hsent) as [processed [-> _]].
  repeat split.
  exists (nextId w).
  split; [reflexivity|]. split; [apply nextId_length|apply nextId_hex].
Qed.

Lemma X9_create_fixed_fields_witness :
  get (createPayload
         (JObj [("name", JStr "w"); ("nodes", JArr []);
                ("tags", JArr [JStr "mine"]); ("staticData", JObj [("n", int 1)])])
         "00000000000000000000000000000000" [])
    "tags" = JArr []
  /\ get (createPayload
            (JObj [("name", JStr "w"); ("nodes", JArr []);
                   ("tags", JArr [JStr "mine"]); ("staticData", JObj [("n", int 1)])])
            "00000000000000000000000000000000" [])
       "staticData" = JObj [].
Proof.
  destruct (X9_create_fixed_fields
              [("name", JStr "w"); ("nodes", JArr []);
               ("tags", JArr [JStr "mine"]); ("staticData", JObj [("n", int 1)])]
              Sample.accepting
              (createPayload
                 (JObj [("name", JStr "w"); ("nodes", JArr []);
                        ("tags", JArr [JStr "mine"]);
                        ("staticData", JObj [("n", int 1)])])
                 "00000000000000000000000000000000" [])
              eq_refl)
    as [_ [_ [_ [_ [Hstatic [_ [Htags _]]]]]]].
  split; assumption.
Defined.


Lemma get_flagged_same (k : string) (ps : Props) :
  get (JObj (flagged k ps)) k = or (get (JObj ps) k) (JBool false).
Proof. unfold flagged. apply get_set_same. Qed.

Lemma normalized_other (bad : Value -> bool) (i : nat) (fresh : string) (ps : Props)
    (k : string) :
  ~ In k normalizedKeys ->
  get (JObj (normalized bad i fresh ps)) k = get (JObj ps) k.
Proof.
  intros Hk. unfold normalized.
  assert (H : forall s, In s normalizedKeys -> k <> s).
  { intros s Hs ->. now apply Hk. }
  rewrite !get_flagged_other, !get_defaulted_other;
    try reflexivity; apply H; simpl; tauto.
Qed.

Lemma normalized_flags (bad : Value -> bool) (i : nat) (fresh : string) (ps : Props) :
  get (JObj (normalized bad i fresh ps)) "disabled"
  = or (get (JObj ps) "disabled") (JBool false)
  /\ get (JObj (normalized bad i fresh ps)) "notesInFlow"
     = or (get (JObj ps) "notesInFlow") (JBool false).
Proof.
  unfold normalized. split.
  - rewrite get_flagged_other by discriminate. rewrite get_flagged_same.
    now rewrite !get_defaulted_other by discriminate.
  - rewrite get_flagged_same. rewrite get_flagged_other by discriminate.
    now rewrite !get_defaulted_other by discriminate.
Qed.

(** X10: normalization touches six properties of a node only.  Every
    other property of a posted node ([name], [type], [credentials],
    [notes], ...) is the caller's, and [disabled] and [notesInFlow] are
    the caller's when truthy and [false] otherwise. *)
Theorem X10_create_keeps_other_node_fields (props : Props) (w : World)
    (payload : Value) (nodes : list Value) (i : nat) (node node' : Value) :
  sent (snd (createWorkflow (JObj props) w)) = sent w ++ [createRequest payload] ->
  get payload "nodes" = JArr nodes ->
  nth_error (callerNodes (JObj props)) i = Some node ->
  nth_error nodes i = Some node' ->
  (forall k, ~ In k normalizedKeys -> get node' k = get node k)
  /\ get node' "disabled" = or (get node "disabled") (JBool false)
  /\ get node' "notesInFlow" = or (get node "notesInFlow") (JBool false).
Proof.
  intros Hsent Hnodes Hnode Hnode'.
  destruct (createWorkflow_payload props w payload Hsent)
    as [processed [-> [_ [_ Hnth]]]].
  simpl in Hnodes. injection Hnodes as <-.
  destruct (Hnth i node' Hnode') as [ps [wa [Hsame [_ [_ ->]]]]].
  rewrite Hnode in Hsame. injection Hsame as ->.
  split; [|apply normalized_flags].
  intros k Hk. now apply normalized_other.
Qed.

Lemma X10_create_keeps_other_node_fields_witness :
  get (JObj [("name", JStr "a"); ("type", JStr "t"); ("notes", JStr "keep me");
             ("disabled", JBool true);
             ("id", JStr "00000000000000000000000000000000");
             ("typeVersion", int 1);
             ("position", JArr [int 250; int 300]);
             ("parameters", JObj []);
             ("notesInFlow", JBool false)]) "notes"
  = JStr "keep me".
Proof.
  refine (proj1 (X10_create_keeps_other_node_fields
                   [("name", JStr "w");
                    ("nodes", JArr [JObj [("name", JStr "a"); ("type", JStr "t");
                                          ("notes", JStr "keep me");
                                          ("disabled", JBool true)]])]
                   Sample.accepting
                   (createPayload
                      (JObj [("name", JStr "w");
                             ("nodes", JArr [JObj [("name", JStr "a"); ("type", JStr "t");
                                                   ("notes", JStr "keep me");
                                                   ("disabled", JBool true)]])])
                      "00000000000000000000000000000000"
                      [JObj [("name", JStr "a"); ("type", JStr "t");
                             ("notes", JStr "keep me");
                             ("disabled", JBool true);
                             ("id", JStr "00000000000000000000000000000000");
                             ("typeVersion", int 1);
                             ("position", JArr [int 250; int 300]);
                             ("parameters", JObj []);
                             ("notesInFlow", JBool false)]])
                   _ 0 _ _ eq_refl eq_refl eq_refl eq_refl) "notes" _).
  simpl. intros H.
  repeat (destruct H as [H|H]; [discriminate H|]). exact H.
Defined.


(** ** spread and property lists *)

Lemma keys_set (k : string) (v : Value) (ps : Props) :
  forall k', In k' (List.map fst (set k v ps)) -> k' = k \/ In k' (List.map fst ps).
Proof.
  induction ps as [|[k0 v0] rest IH]; simpl; intros k' H.
  - destruct H as [H|[]]; auto.
  - destruct (String.eqb k k0); simpl in H.
    + destruct H as [H|H]; auto.
    + destruct H as [H|H]; auto. destruct (IH k' H); auto.
Qed.

Lemma NoDup_set (k : string) (v : Value) (ps : Props) :
  NoDup (List.map fst ps) -> NoDup (List.map fst (set k v ps)).
Proof.
  induction ps as [|[k0 v0] rest IH]; simpl; intros H.
  - constructor; [intros []|constructor].
  - inversion H as [|? ? Hfresh Hrest]; subst.
    destruct (String.eqb_spec k k0) as [->|Hne]; simpl.
    + now constructor.
    + constructor; [|now apply IH].
      intros Hin. apply keys_set in Hin. destruct Hin as [->|Hin]; auto.
Qed.

Lemma keys_remove (k : string) (ps : Props) :
  forall k', In k' (List.map fst (remove k ps)) -> In k' (List.map fst ps).
Proof.
  induction ps as [|[k0 v0] rest IH]; simpl; intros k' H; [exact H|].
  destruct (String.eqb k k0); simpl in H; [right; auto|].
  destruct H as [H|H]; auto.
Qed.

Lemma NoDup_remove (k : string) (ps : Props) :
  NoDup (List.map fst ps) -> NoDup (List.map fst (remove k ps)).
Proof.
  induction ps as [|[k0 v0] rest IH]; simpl; intros H; [exact H|].
  inversion H as [|? ? Hfresh Hrest]; subst.
  destruct (String.eqb k k0); simpl; [now apply IH|].
  constructor; [|now apply IH].
  intros Hin. apply keys_remove in Hin. auto.
Qed.

Lemma lookup_absent (k : string) (ps : Props) :
  ~ In k (List.map fst ps) -> lookup k ps = None.
Proof.
  induction ps as [|[k0 v0] rest IH]; simpl; intros H; [reflexivity|].
  destruct (String.eqb_spec k k0) as [->|Hne]; [exfalso; auto|].
  apply IH. tauto.
Qed.

Lemma lookup_spread_entries (k : string) (source : Props) :
  NoDup (List.map fst source) ->
  forall target,
    lookup k (fold_left (fun acc kv => set (fst kv) (snd kv) acc) source target)
    = match lookup k source with
      | Some v => Some v
      | None => lookup k target
      end.
Proof.
  induction source as [|[k0 v0] rest IH]; intros Hnodup target; simpl;
    [reflexivity|].
  inversion Hnodup as [|? ? Hfresh Hrest]; subst.
  rewrite (IH Hrest).
  destruct (String.eqb_spec k k0) as [->|Hne].
  - rewrite (lookup_absent k0 rest Hfresh). apply lookup_set_same.
  - destruct (lookup k rest); [reflexivity|]. now apply lookup_set_other.
Qed.

Lemma lookup_spread (k : string) (target source : Props) :
  NoDup (List.map fst source) ->
  lookup k (spread target (JObj source))
  = match lookup k source with
    | Some v => Some v
    | None => lookup k target
    end.
Proof. intros H. unfold spread. simpl. now apply lookup_spread_entries. Qed.

(** ** update_workflow, with the update made explicit *)

Lemma updateWorkflow_nodes_explicit (updateData updateData' : Props) (w w' : World) :
  updateWorkflow_nodes updateData w = (Returned updateData', w') ->
  (isArray (get (JObj updateData) "nodes") = false /\ updateData' = updateData)
  \/ exists items processed,
      get (JObj updateData) "nodes" = JArr items
      /\ mapIndexed updateWorkflow_node items w = (Returned processed, w')
      /\ updateData' = set "nodes" (JArr processed) updateData.
Proof.
  unfold updateWorkflow_nodes.
  destruct (get (JObj updateData) "nodes") as [| |b|n|s|items|ps];
    try (intros H; injection H as <- <-; now left).
  unfold bind.
  destruct (mapIndexed updateWorkflow_node items w) as [[processed|e] w1] eqn:Hm;
    [|discriminate].
  intros H. injection H as <- <-. right. now exists items, processed.
Qed.

Lemma updateWorkflow_put (props : Props) (w : World) (fetch put : Request) :
  sent (snd (updateWorkflow (JObj props) w)) = sent w ++ [fetch; put] ->
  exists existing w1 w2 w3 updateData,
    n8nApi (fetchRequest (JObj props)) w = (Returned existing, w1)
    /\ updateWorkflow_nodes (remove "id" props) w1 = (Returned updateData, w2)
    /\ fetch = fetchRequest (JObj props)
    /\ put = replaceRequest (JObj props)
               (updatePayload (data existing) updateData (nextId w2))
    /\ updateWorkflow_merge (data existing) updateData w2
       = (Returned (updatePayload (data existing) updateData (nextId w2)), w3).
Proof.
  unfold updateWorkflow, bind, destructure, ret.
  change (n8nApi (mkRequest GET ("/workflows/" ++ toString (get (JObj props) "id"))%string
                    JUndefined JUndefined) w)
    with (n8nApi (fetchRequest (JObj props)) w).
  pose proof (n8nApi_sent (fetchRequest (JObj props)) w) as Hfetch.
  destruct (n8nApi (fetchRequest (JObj props)) w) as [[existing|e] w1] eqn:Hget;
    simpl in Hfetch.
  2:{ simpl. rewrite Hfetch. intros H. apply app_inv_head in H. discriminate. }
  change (entries (JObj props)) with props.
  pose proof (updateWorkflow_nodes_sameRemote (remove "id" props) w1) as [Hs1 _].
  destruct (updateWorkflow_nodes (remove "id" props) w1)
    as [[updateData|e] w2] eqn:Hnodes; simpl in Hs1.
  2:{ simpl. rewrite Hs1, Hfetch. intros H. apply app_inv_head in H. discriminate. }
  pose proof (updateWorkflow_merge_sameRemote (data existing) updateData w2) as [Hs2 _].
  destruct (updateWorkflow_merge (data existing) updateData w2)
    as [[workflowData|e] w3] eqn:Hmerge; simpl in Hs2.
  2:{ simpl. rewrite Hs2, Hs1, Hfetch. intros H. apply app_inv_head in H.
      discriminate. }
  pose proof (updateWorkflow_merge_returned _ _ _ _ _ Hmerge) as ->.
  match goal with
  | |- context [n8nApi ?r w3] => pose proof (n8nApi_sent r w3) as Hput
  end.
  intros H.
  assert (Hsent : sent w ++ [fetch; put]
                  = sent w ++ [fetchRequest (JObj props);
                               replaceRequest (JObj props)
                                 (updatePayload (data existing) updateData (nextId w2))]).
  { rewrite <- H.
    destruct (n8nApi _ w3) as [[response|e] w4]; simpl in *;
      rewrite Hput, Hs2, Hs1, Hfetch, <- app_assoc; reflexivity. }
  apply app_inv_head in Hsent. injection Hsent as -> ->.
  exists existing, w1, w2, w3, updateData. repeat split; assumption.
Qed.

(** X11: update_workflow reads before it writes.  Its first request is
    the GET of the workflow; when that fails the error is thrown and
    nothing else is sent; in every case the requests are that GET alone
    or that GET followed by one PUT to the same URL. *)
Theorem X11_update_reads_before_writing (props : Props) (w : World) :
  (forall error w1,
      n8nApi (fetchRequest (JObj props)) w = (Threw error, w1) ->
      updateWorkflow (JObj props) w = (Threw error, w1)
      /\ sent w1 = sent w ++ [fetchRequest (JObj props)])
  /\ (sent (snd (updateWorkflow (JObj props) w)) = sent w ++ [fetchRequest (JObj props)]
      \/ exists workflowData,
          sent (snd (updateWorkflow (JObj props) w))
          = sent w ++ [fetchRequest (JObj props);
                       replaceRequest (JObj props) workflowData]).
Proof.
  split.
  - intros error w1 H.
    pose proof (n8nApi_sent (fetchRequest (JObj props)) w) as Hs.
    rewrite H in Hs. split; [|exact Hs].
    unfold updateWorkflow, bind, destructure, ret.
    change (n8nApi (mkRequest GET ("/workflows/" ++ toString (get (JObj props) "id"))%string
                      JUndefined JUndefined) w)
      with (n8nApi (fetchRequest (JObj props)) w).
    now rewrite H.
  - destruct (updateWorkflow_cases props w)
      as [H | [existing [w1 [w2 [updateData [_ [_ H]]]]]]]; [now left|].
    right. eexists. exact H.
Qed.

Lemma X11_update_reads_before_writing_witness :
  updateWorkflow (JObj [("id", JStr "7"); ("name", JStr "new")]) Sample.timingOut
  = (Threw (AxiosError "timeout of 30000ms exceeded" None),
     sending (fetchRequest (JObj [("id", JStr "7"); ("name", JStr "new")]))
       Sample.timingOut).
Proof.
  apply (proj1 (X11_update_reads_before_writing
                  [("id", JStr "7"); ("name", JStr "new")] Sample.timingOut)).
  reflexivity.
Defined.


Lemma get_updatePayload_other (existing : Value) (updateData : Props)
    (instanceId k : string) :
  ~ In k forcedKeys ->
  get (updatePayload existing updateData instanceId) k
  = get (JObj (spread (spread [] existing) (JObj updateData))) k.
Proof.
  intros Hk. unfold updatePayload, mergeWorkflow.
  assert (H : forall s, In s forcedKeys -> k <> s).
  { intros s Hs ->. now apply Hk. }
  rewrite !get_set_other; try reflexivity; apply H; simpl; tauto.
Qed.

(** X12: outside the five properties it sets itself, the workflow
    update_workflow puts is the fetched one overlaid with the arguments:
    a property the caller supplied has the caller's value (for [nodes],
    when it is not an array), any other has the fetched value.  The [id]
    of the body is the fetched workflow's, never the argument's. *)
Theorem X12_update_overlays_other_fields (props fetched : Props) (w w1 : World)
    (existing : Response) (fetch put : Request) :
  NoDup (List.map fst props) ->
  NoDup (List.map fst fetched) ->
  sent (snd (updateWorkflow (JObj props) w)) = sent w ++ [fetch; put] ->
  n8nApi (fetchRequest (JObj props)) w = (Returned existing, w1) ->
  data existing = JObj fetched ->
  get (body put) "id" = get (JObj fetched) "id"
  /\ forall k,
      k <> "id" -> ~ In k forcedKeys ->
      (forall v, lookup k props = Some v ->
                 (k = "nodes" -> isArray v = false) ->
                 get (body put) k = v)
      /\ (lookup k props = None -> get (body put) k = get (JObj fetched) k).
Proof.
  intros Hprops Hfetched Hsent Hget Hdata.
  destruct (updateWorkflow_put props w fetch put Hsent)
    as [existing' [w1' [w2 [w3 [updateData [Hget' [Hnodes [_ [-> _]]]]]]]]].
  rewrite Hget in Hget'. injection Hget' as <- <-.
  rewrite Hdata in *. cbn [body replaceRequest].
  assert (Hbase : forall k, lookup k (spread [] (JObj fetched)) = lookup k fetched).
  { intros k. rewrite (lookup_spread k [] fetched Hfetched).
    now destruct (lookup k fetched). }
  assert (Hnd : NoDup (List.map fst (remove "id" props))) by now apply NoDup_remove.
  assert (Hud : NoDup (List.map fst updateData)).
  { destruct (updateWorkflow_nodes_explicit _ _ _ _ Hnodes)
      as [[_ ->] | [items [processed [_ [_ ->]]]]]; [assumption|now apply NoDup_set]. }
  assert (Hid : lookup "id" updateData = None).
  { destruct (updateWorkflow_nodes_explicit _ _ _ _ Hnodes)
      as [[_ ->] | [items [processed [_ [_ ->]]]]].
    - apply lookup_remove_same.
    - rewrite lookup_set_other by discriminate. apply lookup_remove_same. }
  split.
  - rewrite get_updatePayload_other by (simpl; intuition discriminate).
    simpl. rewrite (lookup_spread "id" _ updateData Hud), Hid, Hbase. reflexivity.
  - intros k Hk Hforced.
    rewrite get_updatePayload_other by assumption.
    simpl. rewrite (lookup_spread k _ updateData Hud), Hbase.
    split.
    + intros v Hv Harr.
      destruct (updateWorkflow_nodes_explicit _ _ _ _ Hnodes)
        as [[_ ->] | [items [processed [Hitems [_ ->]]]]].
      * rewrite lookup_remove_other by assumption. now rewrite Hv.
      * destruct (String.eqb_spec k "nodes") as [->|Hne].
        -- exfalso. simpl in Hitems. rewrite lookup_remove_other in Hitems by discriminate.
           rewrite Hv in Hitems. subst v. specialize (Harr eq_refl). discriminate.
        -- rewrite lookup_set_other, lookup_remove_other by assumption.
           now rewrite Hv.
    + intros Hnone.
      destruct (updateWorkflow_nodes_explicit _ _ _ _ Hnodes)
        as [[_ ->] | [items [processed [Hitems [_ ->]]]]].
      * rewrite lookup_remove_other by assumption. now rewrite Hnone.
      * destruct (String.eqb_spec k "nodes") as [->|Hne].
        -- exfalso. simpl in Hitems. rewrite lookup_remove_other in Hitems by discriminate.
           rewrite Hnone in Hitems. discriminate.
        -- rewrite lookup_set_other, lookup_remove_other by assumption.
           now rewrite Hnone.
Qed.

Lemma X12_update_overlays_other_fields_witness :
  get (updatePayload Sample.stored [("name", JStr "new")]
         "00000000000000000000000000000000") "name" = JStr "new"
  /\ get (updatePayload Sample.stored [("name", JStr "new")]
            "00000000000000000000000000000000") "active" = JBool false
  /\ get (updatePayload Sample.stored [("name", JStr "new")]
            "00000000000000000000000000000000") "id" = JStr "7".
Proof.
  destruct (X12_update_overlays_other_fields
              [("id", JStr "9"); ("name", JStr "new")]
              [("id", JStr "7"); ("name", JStr "old"); ("active", JBool false);
               ("settings", JObj [("executionOrder", JStr "v0")]);
               ("staticData", JObj [("seen", int 2)]);
               ("pinData", JObj [("n", JArr [])])]
              Sample.serving
              (sending (fetchRequest (JObj [("id", JStr "9"); ("name", JStr "new")]))
                 Sample.serving)
              (mkResponse 200 "OK" Sample.stored)
              (fetchRequest (JObj [("id", JStr "9"); ("name", JStr "new")]))
              (replaceRequest (JObj [("id", JStr "9"); ("name", JStr "new")])
                 (updatePayload Sample.stored [("name", JStr "new")]
                    "00000000000000000000000000000000")))
    as [Hid Hother].
  - distinct_keys.
  - distinct_keys.
  - reflexivity.
  - reflexivity.
  - reflexivity.
  - split; [|split].
    + refine (proj1 (Hother "name" _ _) (JStr "new") eq_refl _).
      * discriminate.
      * simpl; intuition discriminate.
      * discriminate.
    + refine (proj2 (Hother "active" _ _) eq_refl).
      * discriminate.
      * simpl; intuition discriminate.
    + exact Hid.
Defined.


Local Opaque hex get.

Lemma updateWorkflow_node_total (index : nat) (node : Value) (w : World) :
  isObjectLike node = true ->
  exists node' w', updateWorkflow_node index node w = (Returned node', w').
Proof.
  destruct node as [| |b|n|s|items|ps]; try discriminate; intros _.
  - cbv [updateWorkflow_node bind prop assign generateNodeId randomBytes ret throw].
    repeat step; eauto.
  - cbv [updateWorkflow_node bind prop assign generateNodeId randomBytes ret throw].
    repeat step; eauto.
Qed.

Local Transparent hex get.

Lemma updateWorkflow_merge_total (existing : Value) (updateData : Props) (w : World) :
  nullish existing = false ->
  exists workflowData w',
    updateWorkflow_merge existing updateData w = (Returned workflowData, w').
Proof.
  intros Hn.
  cbv [updateWorkflow_merge bind prop ret throw randomBytes].
  destruct existing; try discriminate; repeat step; eauto.
Qed.

(** X14: update_workflow validates no node.  Once the GET has succeeded
    with a body that is neither [null] nor [undefined], the PUT is sent
    whenever the supplied nodes, if any, are objects or arrays --
    whatever their fields. *)
Theorem X14_update_never_validates (props : Props) (w w1 : World)
    (existing : Response) :
  n8nApi (fetchRequest (JObj props)) w = (Returned existing, w1) ->
  nullish (data existing) = false ->
  (forall items, get (JObj props) "nodes" = JArr items ->
                 Forall (fun node => isObjectLike node = true) items) ->
  exists workflowData,
    sent (snd (updateWorkflow (JObj props) w))
    = sent w ++ [fetchRequest (JObj props); replaceRequest (JObj props) workflowData].
Proof.
  intros Hget Hexisting Hitems.
  destruct (updateWorkflow_cases props w)
    as [Hone | [existing' [w1' [w2 [updateData [_ [_ H]]]]]]];
    [|eexists; exact H].
  exfalso. revert Hone.
  unfold updateWorkflow, bind, destructure, ret.
  change (n8nApi (mkRequest GET ("/workflows/" ++ toString (get (JObj props) "id"))%string
                    JUndefined JUndefined) w)
    with (n8nApi (fetchRequest (JObj props)) w).
  pose proof (n8nApi_sent (fetchRequest (JObj props)) w) as Hfetch.
  rewrite Hget in *. simpl in Hfetch.
  change (entries (JObj props)) with props.
  assert (Hnodes : exists updateData w2,
             updateWorkflow_nodes (remove "id" props) w1 = (Returned updateData, w2)).
  { unfold updateWorkflow_nodes.
    assert (Hsame : get (JObj (remove "id" props)) "nodes" = get (JObj props) "nodes")
      by (apply get_remove_other; discriminate).
    rewrite Hsame.
    destruct (get (JObj props) "nodes") as [| |b|n|s|items|ps] eqn:E;
      try (eexists; eexists; reflexivity).
    unfold bind, mapIndexed.
    destruct (mapFrom_total updateWorkflow_node (fun node => isObjectLike node = true)
                updateWorkflow_node_total items (Hitems items eq_refl) 0 w1)
      as [processed [w2 ->]].
    eexists; eexists; reflexivity. }
  destruct Hnodes as [updateData [w2 Hnodes]].
  pose proof (updateWorkflow_nodes_sameRemote (remove "id" props) w1) as [Hs1 _].
  rewrite Hnodes in *. simpl in Hs1.
  destruct (updateWorkflow_merge_total (data existing) updateData w2 Hexisting)
    as [workflowData [w3 Hmerge]].
  pose proof (updateWorkflow_merge_sameRemote (data existing) updateData w2) as [Hs2 _].
  rewrite Hmerge in *. simpl in Hs2.
  match goal with
  | |- context [n8nApi ?r w3] => pose proof (n8nApi_sent r w3) as Hput
  end.
  destruct (n8nApi _ w3) as [[response|e] w4]; simpl in *;
    rewrite Hput, Hs2, Hs1, Hfetch, <- app_assoc; intros H;
    apply app_inv_head in H; discriminate.
Qed.

Lemma X14_update_never_validates_witness :
  exists workflowData,
    sent (snd (updateWorkflow
                 (JObj [("id", JStr "7"); ("nodes", JArr [JObj []])])
                 Sample.serving))
    = [fetchRequest (JObj [("id", JStr "7"); ("nodes", JArr [JObj []])]);
       replaceRequest (JObj [("id", JStr "7"); ("nodes", JArr [JObj []])])
         workflowData].
Proof.
  apply (X14_update_never_validates
           [("id", JStr "7"); ("nodes", JArr [JObj []])] Sample.serving
           (sending (fetchRequest (JObj [("id", JStr "7"); ("nodes", JArr [JObj []])]))
              Sample.serving)
           (mkResponse 200 "OK" Sample.stored)).
  - reflexivity.
  - reflexivity.
  - intros items H. injection H as <-. repeat constructor.
Defined.


(** X13: the nodes update_workflow puts, when the caller supplies an
    array: as many as supplied; an element that is an array is left as
    it is; a node object keeps its [name] and [type] as they are, missing
    ones included, and gets a truthy id, typeVersion 1 and empty
    parameters where those are falsy, and the default position where its
    position is falsy or not an array (an array of any length is kept). *)
Theorem X13_update_nodes_normalized (props : Props) (w : World) (fetch put : Request)
    (items : list Value) :
  NoDup (List.map fst props) ->
  sent (snd (updateWorkflow (JObj props) w)) = sent w ++ [fetch; put] ->
  get (JObj props) "nodes" = JArr items ->
  exists processed,
    get (body put) "nodes" = JArr processed
    /\ List.length processed = List.length items
    /\ forall i node',
        nth_error processed i = Some node' ->
        exists node,
          nth_error items i = Some node
          /\ ((exists elements, node = JArr elements /\ node' = node)
              \/ (exists ps,
                     node = JObj ps
                     /\ get node' "name" = get node "name"
                     /\ get node' "type" = get node "type"
                     /\ truthy (get node' "id") = true
                     /\ get node' "typeVersion" = or (get node "typeVersion") (int 1)
                     /\ get node' "position"
                        = (if notAnArray (get node "position")
                           then JArr [int (250 + 250 * Z.of_nat i); int 300]
                           else get node "position")
                     /\ get node' "parameters" = or (get node "parameters") (JObj []))).
Proof.
  intros Hprops Hsent Hitems.
  destruct (updateWorkflow_put props w fetch put Hsent)
    as [existing [w1 [w2 [w3 [updateData [Hget [Hnodes [_ [-> _]]]]]]]]].
  cbn [body replaceRequest].
  assert (Hsame : get (JObj (remove "id" props)) "nodes" = JArr items).
  { rewrite get_remove_other by discriminate. exact Hitems. }
  destruct (updateWorkflow_nodes_explicit _ _ _ _ Hnodes)
    as [[Hno _] | [items' [processed [Hitems' [Hmap ->]]]]].
  { rewrite Hsame in Hno. discriminate. }
  rewrite Hsame in Hitems'. injection Hitems' as <-.
  exists processed.
  destruct (mapFrom_returned updateWorkflow_node _ _ _ _ _ Hmap) as [Hlen Hnth].
  split; [|split; [exact Hlen|]].
  - rewrite get_updatePayload_other by (simpl; intuition discriminate).
    simpl. rewrite lookup_spread.
    + now rewrite lookup_set_same.
    + apply NoDup_set. now apply NoDup_remove.
  - intros i node' Hi.
    destruct (Hnth i node' Hi) as [node [wa [wb [Hnode Hrun]]]].
    exists node. split; [exact Hnode|].
    destruct (updateWorkflow_node_returned _ _ _ _ _ Hrun)
      as [[ps [-> ->]] | [elements [-> ->]]].
    + right. exists ps. split; [reflexivity|].
      rewrite normalized_id, normalized_typeVersion, normalized_position,
        normalized_parameters.
      rewrite !normalized_other by (simpl; intuition discriminate).
      repeat split.
      * unfold falsy. destruct (truthy (get (JObj ps) "id")) eqn:E; simpl; [exact E|].
        pose proof (nextId_length wa) as Hl. now destruct (nextId wa).
      * unfold defaultPosition. now rewrite Z.mul_comm.
    + left. now exists elements.
Qed.

Lemma X13_update_nodes_normalized_witness :
  exists processed,
    get (body (replaceRequest
                 (JObj [("id", JStr "7");
                        ("nodes", JArr [JObj [("position", JArr [int 1])]])])
                 (updatePayload Sample.stored
                    [("nodes",
                      JArr [JObj [("position", JArr [int 1]);
                                  ("id", JStr "00000000000000000000000000000000");
                                  ("typeVersion", int 1);
                                  ("parameters", JObj []);
                                  ("disabled", JBool false);
                                  ("notesInFlow", JBool false)]])]
                    "00000000000000000000000000000000")))
      "nodes" = JArr processed
    /\ List.length processed = 1.
Proof.
  destruct (X13_update_nodes_normalized
              [("id", JStr "7"); ("nodes", JArr [JObj [("position", JArr [int 1])]])]
              Sample.serving
              (fetchRequest
                 (JObj [("id", JStr "7");
                        ("nodes", JArr [JObj [("position", JArr [int 1])]])]))
              (replaceRequest
                 (JObj [("id", JStr "7");
                        ("nodes", JArr [JObj [("position", JArr [int 1])]])])
                 (updatePayload Sample.stored
                    [("nodes",
                      JArr [JObj [("position", JArr [int 1]);
                                  ("id", JStr "00000000000000000000000000000000");
                                  ("typeVersion", int 1);
                                  ("parameters", JObj []);
                                  ("disabled", JBool false);
                                  ("notesInFlow", JBool false)]])]
                    "00000000000000000000000000000000"))
              [JObj [("position", JArr [int 1])]])
    as [processed [Hnodes [Hlen _]]].
  - distinct_keys.
  - reflexivity.
  - reflexivity.
  - exists processed. now split.
Defined.


(** ** Identifiers *)



(** X16: [generateNodeId] always returns 32 lower-case hexadecimal
    digits, reads 16 bytes of the random source and sends nothing; the
    next identifier is made of the 16 bytes that follow. *)
Theorem X16_generateNodeId_format (w : World) :
  exists id w',
    generateNodeId w = (Returned id, w')
    /\ String.length id = 32
    /\ allChars isHexDigit id = true
    /\ drawn w' = drawn w + 16
    /\ sent w' = sent w
    /\ fst (generateNodeId w') = Returned (nextId w')
    /\ nextId w' = hex (List.map (fun i => entropy w (drawn w + 16 + i)) (seq 0 16)).
Proof.
  exists (nextId w), (mkWorld (entropy w) (drawn w + 16) (remote w) (sent w)).
  split; [reflexivity|]. split; [apply nextId_length|].
  split; [apply hex_allChars|]. repeat split.
Qed.


(** ** Connections *)

Lemma set_fresh (k : string) (v : Value) (ps : Props) :
  ~ In k (List.map fst ps) -> set k v ps = ps ++ [(k, v)].
Proof.
  induction ps as [|[k0 v0] rest IH]; simpl; intros H; [reflexivity|].
  destruct (String.eqb_spec k k0) as [->|Hne]; [exfalso; auto|].
  rewrite IH; [reflexivity|tauto].
Qed.

Lemma keys_filter (f : string * Value -> bool) (ps : Props) (k : string) :
  In k (List.map fst (filter f ps)) -> In k (List.map fst ps).
Proof.
  induction ps as [|[k0 v0] rest IH]; simpl; [auto|].
  destruct (f (k0, v0)); simpl; intuition.
Qed.

Lemma NoDup_filter_keys (f : string * Value -> bool) (ps : Props) :
  NoDup (List.map fst ps) -> NoDup (List.map fst (filter f ps)).
Proof.
  induction ps as [|[k0 v0] rest IH]; simpl; intros H; [exact H|].
  inversion H as [|? ? Hfresh Hrest]; subst.
  destruct (f (k0, v0)); simpl; [|now apply IH].
  constructor; [|now apply IH].
  intros Hin. apply keys_filter in Hin. auto.
Qed.

Lemma processConnections_fold_list (ps : Props) :
  NoDup (List.map fst ps) ->
  forall processed,
    (forall k, In k (List.map fst ps) -> ~ In k (List.map fst processed)) ->
    fold_left
      (fun processed kv =>
         if isObjectLike (snd kv)
         then assignComputed (fst kv) (snd kv) processed
         else processed)
      ps processed
    = processed ++ filter copied ps.
Proof.
  induction ps as [|[k0 v0] rest IH]; intros Hnodup processed Hfresh.
  - simpl. now rewrite app_nil_r.
  - inversion Hnodup as [|? ? Hk0 Hrest]; subst.
    cbn [fold_left filter fst snd].
    assert (Hc : copied (k0, v0)
                 = isObjectLike v0 && negb (String.eqb k0 "__proto__")) by reflexivity.
    assert (Hkeep : forall k, In k (List.map fst rest) ->
                              ~ In k (List.map fst processed)).
    { intros k Hk. apply Hfresh. simpl. auto. }
    rewrite Hc.
    destruct (isObjectLike v0); simpl andb; cbv iota; [|now apply IH].
    change (assignComputed k0 v0 processed)
      with (if String.eqb k0 "__proto__" then processed else set k0 v0 processed).
    destruct (String.eqb k0 "__proto__"); simpl negb; cbv iota; [now apply IH|].
    rewrite set_fresh by (apply Hfresh; simpl; auto).
    rewrite IH; auto.
    + now rewrite <- app_assoc.
    + intros k Hk Hin. rewrite List.map_app, in_app_iff in Hin. simpl in Hin.
      destruct Hin as [Hin|[<-|[]]]; [|auto].
      now apply (Hkeep k).
Qed.

(** X17: on a connections object (its keys distinct), the processing of
    create_workflow is a filter: the entries that are posted are those
    with an object or array value under a key other than [__proto__],
    in their order and with their values; processing the result again
    changes nothing. *)
Theorem X17_connections_survivors (ps : Props) :
  NoDup (List.map fst ps) ->
  processConnections (JObj ps) = filter copied ps
  /\ processConnections (JObj (processConnections (JObj ps)))
     = processConnections (JObj ps).
Proof.
  intros Hnodup.
  assert (H : forall qs, NoDup (List.map fst qs) ->
                         processConnections (JObj qs) = filter copied qs).
  { intros qs Hq. unfold processConnections. simpl.
    now rewrite (processConnections_fold_list qs Hq []). }
  split; [now apply H|].
  rewrite (H ps Hnodup), (H _ (NoDup_filter_keys copied ps Hnodup)).
  induction ps as [|kv rest IH]; simpl; [reflexivity|].
  inversion Hnodup; subst.
  destruct (copied kv) eqn:E; simpl; rewrite ?E, IH; auto.
Qed.

Lemma X17_connections_survivors_witness :
  processConnections
    (JObj [("A", JObj [("main", JArr [])]); ("B", JStr "oops"); ("C", JNull);
           ("D", JArr [])])
  = [("A", JObj [("main", JArr [])]); ("D", JArr [])].
Proof.
  apply (proj1 (X17_connections_survivors
                  [("A", JObj [("main", JArr [])]); ("B", JStr "oops"); ("C", JNull);
                   ("D", JArr [])]
                  ltac:(distinct_keys))).
Defined.


(** ** At most one fallback *)

Lemma activateWorkflow_requests (props : Props) (w : World) :
  exists rest,
    sent (snd (activateWorkflow (JObj props) w))
    = sent w ++ activatePrimary (JObj props) :: rest
    /\ (rest = []
        \/ rest = [fetchRequest (JObj props)]
        \/ exists modified,
            rest = [fetchRequest (JObj props);
                    replaceRequest (JObj props) modified]).
Proof.
  pose proof (n8nApi_sent (activatePrimary (JObj props)) w) as Hsent.
  rewrite activateWorkflow_unfold.
    destruct (n8nApi (activatePrimary (JObj props)) w) as [[response|error] w1];
      simpl in Hsent.
    { exists []. split; [exact Hsent|now left]. }
    destruct (failureStatus error) as [code|];
      [|exists []; split; [exact Hsent|now left]].
    destruct (code =? 405)%Z; [|exists []; split; [exact Hsent|now left]].
    unfold activateFallback.
    pose proof (n8nApi_sent (fetchRequest (JObj props)) w1) as Hsent1.
    destruct (n8nApi (fetchRequest (JObj props)) w1) as [[workflow|error'] w2];
      simpl in Hsent1.
    2:{ exists [fetchRequest (JObj props)]. simpl.
        rewrite Hsent1, Hsent, <- app_assoc. split; [reflexivity|auto]. }
    assert (Hassign : forall v o w3,
               assign (data workflow) "active" v w2 = (o, w3) -> w3 = w2).
    { intros v o w3. destruct (data workflow); cbv [assign ret throw];
        intros H; now inversion H. }
    destruct (assign (data workflow) "active" (get (JObj props) "active") w2)
      as [[modified|error'] w3] eqn:Ha; pose proof (Hassign _ _ _ Ha) as ->.
    2:{ exists [fetchRequest (JObj props)]. simpl.
        rewrite Hsent1, Hsent, <- app_assoc. split; [reflexivity|auto]. }
    pose proof (n8nApi_sent (replaceRequest (JObj props) modified) w2) as Hsent2.
    exists [fetchRequest (JObj props); replaceRequest (JObj props) modified].
    split; [|right; right; now exists modified].
    destruct (n8nApi (replaceRequest (JObj props) modified) w2) as [[r|e] w4];
      simpl in *; rewrite Hsent2, Hsent1, Hsent, <- !app_assoc; reflexivity.
Qed.


(** X18: activate_workflow when the PATCH succeeds sends nothing else and
    answers with the activation text; and whatever happens its requests
    are the PATCH alone, the PATCH and a GET, or the PATCH, a GET and a
    PUT, all of the same workflow URL. *)
Theorem X18_activate_requests (props : Props) (w : World) :
  (forall response w1,
      n8nApi (activatePrimary (JObj props)) w = (Returned response, w1) ->
      activateWorkflow (JObj props) w
      = (Returned (activationText (get (JObj props) "active") response), w1)
      /\ sent w1 = sent w ++ [activatePrimary (JObj props)])
  /\ exists rest,
      sent (snd (activateWorkflow (JObj props) w))
      = sent w ++ activatePrimary (JObj props) :: rest
      /\ (rest = []
          \/ rest = [fetchRequest (JObj props)]
          \/ exists modified,
              rest = [fetchRequest (JObj props);
                      replaceRequest (JObj props) modified]).
Proof.
  split; [|apply activateWorkflow_requests].
  intros response w1 H.
  pose proof (n8nApi_sent (activatePrimary (JObj props)) w) as Hsent.
  rewrite activateWorkflow_unfold, H. rewrite H in Hsent. now split.
Qed.

Lemma X18_activate_requests_witness :
  activateWorkflow (JObj [("id", JStr "7"); ("active", JBool false)]) Sample.accepting
  = (Returned (activationText (JBool false)
                 (mkResponse 200 "OK" (JObj [("id", JStr "7")]))),
     sending (activatePrimary (JObj [("id", JStr "7"); ("active", JBool false)]))
       Sample.accepting).
Proof.
  apply (proj1 (proj1 (X18_activate_requests
                         [("id", JStr "7"); ("active", JBool false)] Sample.accepting)
                  (mkResponse 200 "OK" (JObj [("id", JStr "7")])) _ eq_refl)).
Defined.


Lemma executeWorkflow_requests (props : Props) (w : World) :
  sent (snd (executeWorkflow (JObj props) w)) = sent w ++ [executePrimary (JObj props)]
  \/ sent (snd (executeWorkflow (JObj props) w))
     = sent w ++ [executePrimary (JObj props); executeFallback (JObj props)].
Proof.
  pose proof (n8nApi_sent (executePrimary (JObj props)) w) as Hsent.
  rewrite executeWorkflow_unfold.
  destruct (n8nApi (executePrimary (JObj props)) w) as [[response|error] w1];
    simpl in Hsent; [now left|].
  destruct (failureStatus error) as [code|]; [|now left].
  destruct ((code =? 404)%Z || (code =? 405)%Z); [|now left].
  right.
  pose proof (n8nApi_sent (executeFallback (JObj props)) w1) as Hsent1.
  destruct (n8nApi (executeFallback (JObj props)) w1) as [[r|e] w2];
    simpl in *; rewrite Hsent1, Hsent, <- app_assoc; reflexivity.
Qed.

(** X19: execute_workflow sends the primary POST alone or followed by the
    one fallback POST, never more; and once the primary POST has failed
    with 404 or 405 the outcome is that of the fallback: its response
    when it succeeds, its own error -- not the 404 -- when it fails. *)
Theorem X19_execute_requests (props : Props) (w : World) :
  (sent (snd (executeWorkflow (JObj props) w)) = sent w ++ [executePrimary (JObj props)]
   \/ sent (snd (executeWorkflow (JObj props) w))
      = sent w ++ [executePrimary (JObj props); executeFallback (JObj props)])
  /\ (forall error code w1,
         n8nApi (executePrimary (JObj props)) w = (Threw error, w1) ->
         failureStatus error = Some code -> code = 404%Z \/ code = 405%Z ->
         executeWorkflow (JObj props) w
         = match n8nApi (executeFallback (JObj props)) w1 with
           | (Returned response, w2) =>
               (Returned (Some (executionText response)), w2)
           | (Threw error', w2) => (Threw error', w2)
           end).
Proof.
  split; [apply executeWorkflow_requests|].
  intros error code w1 H Hcode Hor.
  rewrite executeWorkflow_unfold, H, Hcode.
  assert (Hb : ((code =? 404)%Z || (code =? 405)%Z) = true).
  { destruct Hor as [-> | ->]; reflexivity. }
  now rewrite Hb.
Qed.

Lemma X19_execute_requests_witness :
  executeWorkflow (JObj [("id", JStr "7")]) Sample.withoutExecute
  = (Returned (Some (executionText
                       (mkResponse 200 "OK" (JObj [("executionId", int 11)])))),
     sending (executeFallback (JObj [("id", JStr "7")]))
       (sending (executePrimary (JObj [("id", JStr "7")])) Sample.withoutExecute)).
Proof.
  apply (proj2 (X19_execute_requests [("id", JStr "7")] Sample.withoutExecute)
           _ 404%Z _ eq_refl eq_refl (or_introl eq_refl)).
Defined.


(** ** get_executions with truthy arguments *)

(** X20: get_executions forwards truthy arguments as they are, without
    checking their type: the query is [{ limit, workflowId }] in that
    order, or [{ limit }] alone when [workflowId] is falsy. *)
Theorem X20_getExecutions_forwards (props : Props) (w : World) :
  truthy (get (JObj props) "limit") = true ->
  (truthy (get (JObj props) "workflowId") = true ->
   sent (snd (getExecutions (JObj props) w))
   = sent w ++ [executionsRequest [("limit", get (JObj props) "limit");
                                   ("workflowId", get (JObj props) "workflowId")]])
  /\ (truthy (get (JObj props) "workflowId") = false ->
      sent (snd (getExecutions (JObj props) w))
      = sent w ++ [executionsRequest [("limit", get (JObj props) "limit")]]).
Proof.
  intros Hlimit.
  split; intros Hw; unfold getExecutions, bind, prop, ret;
    rewrite Hw, (or_truthy _ _ Hlimit); simpl set;
    match goal with |- context [n8nApi ?r w] => pose proof (n8nApi_sent r w) as Hs end;
    now destruct (n8nApi _ w) as [[r|e] w1].
Qed.

Lemma X20_getExecutions_forwards_witness :
  sent (snd (getExecutions (JObj [("limit", int 5); ("workflowId", JStr "w1")])
               Sample.accepting))
  = [executionsRequest [("limit", int 5); ("workflowId", JStr "w1")]]
  /\ sent (snd (getExecutions (JObj [("limit", JStr "many")]) Sample.accepting))
     = [executionsRequest [("limit", JStr "many")]].
Proof.
  split.
  - apply (proj1 (X20_getExecutions_forwards
                    [("limit", int 5); ("workflowId", JStr "w1")] Sample.accepting
                    eq_refl)).
    reflexivity.
  - apply (proj2 (X20_getExecutions_forwards
                    [("limit", JStr "many")] Sample.accepting eq_refl)).
    reflexivity.
Defined.


(** ** Errors as the caller reads them *)

(** X15: what the caller of get_workflow reads when the remote system
    answers with a status outside 2xx: "Error: HTTP <status> <text>",
    followed by " - " and the body when it is a non-empty string, else
    its truthy [message], else its truthy [error]; a falsy body adds
    nothing.  The message of the axios error itself is not shown. *)
Theorem X15_http_error_text (props : Props) (w : World) (r : Response) :
  remote w (sent w) (fetchRequest (JObj props)) = Responded r ->
  validateStatus (status r) = false ->
  (forall c rest,
      data r = JStr (String c rest) ->
      fst (callTool "get_workflow" (JObj props) w)
      = Some ("Error: " ++ httpLine (status r) (statusText r) ++ " - "
                ++ String c rest)%string)
  /\ (forall fields,
         data r = JObj fields ->
         truthy (get (JObj fields) "message") = true ->
         fst (callTool "get_workflow" (JObj props) w)
         = Some ("Error: " ++ httpLine (status r) (statusText r) ++ " - "
                   ++ toString (get (JObj fields) "message"))%string)
  /\ (forall fields,
         data r = JObj fields ->
         truthy (get (JObj fields) "message") = false ->
         truthy (get (JObj fields) "error") = true ->
         fst (callTool "get_workflow" (JObj props) w)
         = Some ("Error: " ++ httpLine (status r) (statusText r) ++ " - "
                   ++ toString (get (JObj fields) "error"))%string)
  /\ (truthy (data r) = false ->
      fst (callTool "get_workflow" (JObj props) w)
      = Some ("Error: " ++ httpLine (status r) (statusText r))%string).
Proof.
  intros Hreply Hstatus.
  assert (Hcall : fst (callTool "get_workflow" (JObj props) w)
                  = Some ("Error: "
                            ++ formatError
                                 (AxiosError
                                    ("Request failed with status code "
                                       ++ decimal (status r))
                                    (Some r)))%string).
  { unfold callTool. cbn [String.eqb Ascii.eqb Bool.eqb].
    unfold content, getWorkflow, bind, prop, ret.
    change (n8nApi (mkRequest GET ("/workflows/" ++ toString (get (JObj props) "id"))%string
                      JUndefined JUndefined) w)
      with (n8nApi (fetchRequest (JObj props)) w).
    unfold n8nApi. now rewrite Hreply, Hstatus. }
  rewrite Hcall. destruct r as [code text body]. cbn [status statusText data] in *.
  repeat split.
  - intros c rest ->. reflexivity.
  - intros fields -> Hm. now rewrite (formatError_message_field _ _ _ _ Hm).
  - intros fields -> Hm He. now rewrite (formatError_error_field _ _ _ _ Hm He).
  - intros Hb. now rewrite (formatError_falsy_body _ _ _ _ Hb).
Qed.

Lemma X15_http_error_text_witness :
  fst (callTool "get_workflow" (JObj [("id", JStr "404")]) Sample.withoutExecute)
  = Some "Error: HTTP 404 Not Found - not found".
Proof.
  apply (proj1 (proj2 (X15_http_error_text
                         [("id", JStr "404")] Sample.withoutExecute
                         (mkResponse 404 "Not Found"
                            (JObj [("message", JStr "not found")]))
                         eq_refl eq_refl))
           [("message", JStr "not found")] eq_refl eq_refl).
Defined.


(** ** No tool sends more than three requests *)

Lemma content_world (handler : M string) (w : World) :
  snd (content handler w) = snd (handler w).
Proof.
  unfold content, bind, ret. now destruct (handler w) as [[text|error] w'].
Qed.

(** X21: no tool call with an argument object sends more than three
    requests, whatever the tool name and whatever the remote system
    answers. *)
Theorem X21_at_most_three_requests (name : string) (props : Props) (w : World) :
  exists issued,
    sent (snd (callTool name (JObj props) w)) = sent w ++ issued
    /\ List.length issued <= 3.
Proof.
  assert (Hcall : forall handler : M (option string),
             (exists issued, sent (snd (handler w)) = sent w ++ issued
                             /\ List.length issued <= 3) ->
             exists issued,
               sent (snd (match handler w with
                          | (Returned result, w') => (result, w')
                          | (Threw error, w') =>
                              (Some ("Error: " ++ formatError error)%string, w')
                          end)) = sent w ++ issued
               /\ List.length issued <= 3).
  { intros handler H. now destruct (handler w) as [[result|error] w']. }
  unfold callTool.
  repeat match goal with
         | |- context [String.eqb name ?s] => destruct (String.eqb name s)
         end; apply Hcall; rewrite ?content_world.
  - unfold listWorkflows, bind, prop, ret.
    destruct (get (JObj props) "active");
      match goal with |- context [n8nApi ?r w] => pose proof (n8nApi_sent r w) as Hs end;
      destruct (n8nApi _ w) as [[r|e] w1]; eexists; (split; [exact Hs|simpl; lia]).
  - unfold getWorkflow, bind, prop, ret.
    match goal with |- context [n8nApi ?r w] => pose proof (n8nApi_sent r w) as Hs end.
    destruct (n8nApi _ w) as [[r|e] w1]; eexists; (split; [exact Hs|simpl; lia]).
  - destruct (createWorkflow_cases props w)
      as [[H _] | [processed [w0 [w1 [_ [_ H]]]]]].
    + exists []. rewrite app_nil_r. split; [exact H|simpl; lia].
    + eexists. split; [exact H|simpl; lia].
  - destruct (updateWorkflow_cases props w)
      as [H | [existing [w1 [w2 [updateData [_ [_ H]]]]]]];
      eexists; (split; [exact H|simpl; lia]).
  - destruct (deleteWorkflow_cases props w) as [H _].
    eexists. split; [exact H|simpl; lia].
  - destruct (activateWorkflow_requests props w) as [rest [H Hrest]].
    eexists. split; [exact H|].
    destruct Hrest as [->|[->|[m ->]]]; simpl; lia.
  - destruct (executeWorkflow_requests props w) as [H|H];
      eexists; (split; [exact H|simpl; lia]).
  - unfold getExecutions, bind, prop, ret.
    match goal with |- context [n8nApi ?r w] => pose proof (n8nApi_sent r w) as Hs end.
    destruct (n8nApi _ w) as [[r|e] w1]; eexists; (split; [exact Hs|simpl; lia]).
  - exists []. rewrite app_nil_r. split; [reflexivity|simpl; lia].
Qed.
